(** * Verification of the Alteryx Gallery API client

    A shallow embedding of [alteryx_gallery_api_v3_compatible.py]: the
    credential holder, the nonce generator, the OAuth 1.0a request signer and
    the endpoint operations of class [Gallery].

    Python values are embedded as follows.
    - [str] is a sequence of Unicode code points: [pystr := list N].
    - [bytes] is [list byte].
    - a [dict] is an association list in insertion order whose keys are
      pairwise distinct; dicts that are shared and mutated live in a heap.
    - exceptions are the [Raise] branch of [result].
    - the random source, the clock and the network are fields of [World];
      methods that touch them run in the monad [M]. *)

From Stdlib Require Import ZArith NArith List String Ascii Lia.
From Stdlib.Strings Require Import Byte.
From Stdlib Require Import DecimalString DecimalPos.
From stdpp Require Import base tactics option list sorting.
Import ListNotations.

Set Default Proof Using "Type".
Local Open Scope Z_scope.

(** ** Text and bytes *)

Definition pystr := list N.
Definition bytes := list byte.

(** Literals: an ASCII Rocq string read as a Python [str] / [bytes]. *)
Definition str (s : string) : pystr := map N_of_ascii (list_ascii_of_string s).
Definition lit (s : string) : bytes := list_byte_of_string s.

Definition byte_val (x : byte) : Z := Z.of_N (Byte.to_N x).
Definition byte_of (z : Z) : byte :=
  match Byte.of_N (Z.to_N (z mod 256)) with
  | Some x => x
  | None => x00
  end.

(** [sep.join(parts)] *)
Fixpoint join {A} (sep : list A) (parts : list (list A)) : list A :=
  match parts with
  | [] => []
  | [p] => p
  | p :: rest => p ++ sep ++ join sep rest
  end.

(** ** hashlib.sha1 (FIPS 180-4), on 32-bit words held in [Z] *)

Module SHA1.

Definition wrap (x : Z) : Z := x mod 2 ^ 32.
Definition add (x y : Z) : Z := wrap (x + y).
Definition rotl (n x : Z) : Z :=
  wrap (Z.lor (Z.shiftl x n) (Z.shiftr x (32 - n))).
Definition lnot32 (x : Z) : Z := Z.lxor x (2 ^ 32 - 1).

(** Big-endian encoding of a value on [n] bytes. *)
Fixpoint be_bytes (n : nat) (x : Z) : bytes :=
  match n with
  | O => []
  | S k => byte_of (Z.shiftr x (8 * Z.of_nat k)) :: be_bytes k x
  end.

Definition be_word (bs : bytes) : Z :=
  fold_left (fun acc x => acc * 256 + byte_val x) bs 0.

(** Padding: 0x80, zeros up to 56 mod 64, then the bit length on 8 bytes. *)
Definition pad (msg : bytes) : bytes :=
  let len := Z.of_nat (length msg) in
  let zeros := Z.to_nat ((55 - len) mod 64) in
  msg ++ [x80] ++ repeat x00 zeros ++ be_bytes 8 (8 * len).

Fixpoint chunks (n : nat) (size : nat) (bs : bytes) : list bytes :=
  match n with
  | O => []
  | S k => firstn size bs :: chunks k size (skipn size bs)
  end.

Definition blocks (bs : bytes) : list bytes :=
  chunks (Nat.div (length bs) 64) 64 bs.

(** Message schedule, most recent word first: W_t =
    ROTL1 (W_(t-3) xor W_(t-8) xor W_(t-14) xor W_(t-16)). *)
Fixpoint extend (n : nat) (ws : list Z) : list Z :=
  match n with
  | O => ws
  | S k =>
      let w := rotl 1 (Z.lxor (Z.lxor (nth 2 ws 0) (nth 7 ws 0))
                              (Z.lxor (nth 13 ws 0) (nth 15 ws 0))) in
      extend k (w :: ws)
  end.

Definition schedule (block : bytes) : list Z :=
  rev (extend 64 (rev (map be_word (chunks 16 4 block)))).

Definition f (t : nat) (x y z : Z) : Z :=
  if (t <? 20)%nat then Z.lor (Z.land x y) (Z.land (lnot32 x) z)
  else if (t <? 40)%nat then Z.lxor (Z.lxor x y) z
  else if (t <? 60)%nat then
    Z.lor (Z.lor (Z.land x y) (Z.land x z)) (Z.land y z)
  else Z.lxor (Z.lxor x y) z.

Definition K (t : nat) : Z :=
  if (t <? 20)%nat then 0x5A827999
  else if (t <? 40)%nat then 0x6ED9EBA1
  else if (t <? 60)%nat then 0x8F1BBCDC
  else 0xCA62C1D6.

Record state := State { ha : Z; hb : Z; hc : Z; hd : Z; he : Z }.

Definition init : state :=
  State 0x67452301 0xEFCDAB89 0x98BADCFE 0x10325476 0xC3D2E1F0.

Definition round (st : state) (tw : nat * Z) : state :=
  let '(t, w) := tw in
  let tmp :=
    add (add (add (add (rotl 5 (ha st)) (f t (hb st) (hc st) (hd st)))
                  (he st)) (K t)) w in
  State tmp (ha st) (rotl 30 (hb st)) (hc st) (hd st).

Definition compress (h : state) (block : bytes) : state :=
  let ws := schedule block in
  let r := fold_left round (combine (seq 0 80) ws) h in
  State (add (ha h) (ha r)) (add (hb h) (hb r)) (add (hc h) (hc r))
        (add (hd h) (hd r)) (add (he h) (he r)).

Definition digest (msg : bytes) : bytes :=
  let h := fold_left compress (blocks (pad msg)) init in
  be_bytes 4 (ha h) ++ be_bytes 4 (hb h) ++ be_bytes 4 (hc h)
    ++ be_bytes 4 (hd h) ++ be_bytes 4 (he h).

Definition block_size : nat := 64.

End SHA1.

(** ** hmac.new(key, msg, hashlib.sha1).digest() (RFC 2104) *)

Definition xor_pad (c : Z) (key : bytes) : bytes :=
  map (fun x => byte_of (Z.lxor (byte_val x) c)) key.

Definition hmac_sha1 (key msg : bytes) : bytes :=
  let key := if (SHA1.block_size <? length key)%nat then SHA1.digest key
             else key in
  let key := key ++ repeat x00 (SHA1.block_size - length key) in
  let inner := SHA1.digest (xor_pad 0x36 key ++ msg) in
  SHA1.digest (xor_pad 0x5C key ++ inner).

(** ** base64.b64encode (RFC 4648, standard alphabet, padded) *)

Definition b64_alphabet : bytes :=
  lit "ABCDEFGHIJKLMNOPQRSTUVWXYZabcdefghijklmnopqrstuvwxyz0123456789+/".

Definition b64_char (i : Z) : byte := nth (Z.to_nat (i mod 64)) b64_alphabet x00.

Fixpoint b64encode (bs : bytes) : bytes :=
  match bs with
  | [] => []
  | [x] =>
      let n := byte_val x in
      [b64_char (Z.shiftr n 2); b64_char (Z.shiftl n 4); x3d; x3d]
  | [x; y] =>
      let n := byte_val x * 256 + byte_val y in
      [b64_char (Z.shiftr n 10); b64_char (Z.shiftr n 4);
       b64_char (Z.shiftl n 2); x3d]
  | x :: y :: z :: rest =>
      let n := (byte_val x * 256 + byte_val y) * 256 + byte_val z in
      b64_char (Z.shiftr n 18) :: b64_char (Z.shiftr n 12)
        :: b64_char (Z.shiftr n 6) :: b64_char n :: b64encode rest
  end.

(** ** Exceptions *)

Inductive exn :=
| Exception (msg : pystr)
| TypeError (msg : pystr)
| UnicodeEncodeError (codec : string)
| UnicodeDecodeError (codec : string)
| JSONDecodeError
| IndexError
| ConnectionError
| SystemError.

Inductive result (A : Type) :=
| Ok (a : A)
| Raise (e : exn).
Arguments Ok {A} a.
Arguments Raise {A} e.

#[global] Instance result_ret : MRet result := @Ok.
#[global] Instance result_bind : MBind result := fun A B f m =>
  match m with
  | Ok a => f a
  | Raise e => Raise e
  end.

Definition or_raise {A} (e : exn) (o : option A) : result A :=
  match o with
  | Some a => Ok a
  | None => Raise e
  end.

(** ** Python values that reach the client: credentials, dict values *)

Inductive pyval :=
| VNone
| VBool (b : bool)
| VInt (z : Z)
| VStr (s : pystr)
| VBytes (bs : bytes).

(** Truth value, as tested by [not x]. *)
Definition truthy (v : pyval) : bool :=
  match v with
  | VNone => false
  | VBool b => b
  | VInt z => negb (z =? 0)
  | VStr s => negb (Nat.eqb (length s) 0)
  | VBytes bs => negb (Nat.eqb (length bs) 0)
  end.

Definition isinstance_str (v : pyval) : bool :=
  match v with
  | VStr _ => true
  | _ => false
  end.

(** What [{type(x)}] prints inside an f-string. *)
Definition type_repr (v : pyval) : pystr :=
  match v with
  | VNone => str "<class 'NoneType'>"
  | VBool _ => str "<class 'bool'>"
  | VInt _ => str "<class 'int'>"
  | VStr _ => str "<class 'str'>"
  | VBytes _ => str "<class 'bytes'>"
  end.

(** [str(int)] *)
Definition str_of_int (z : Z) : pystr := str (NilZero.string_of_int (Z.to_int z)).

(** The argument [urlencode] hands to [quote_via] for a value: the value itself
    when it is bytes, [str(v)] otherwise. *)
Definition quotable (v : pyval) : pystr + bytes :=
  match v with
  | VNone => inl (str "None")
  | VBool true => inl (str "True")
  | VBool false => inl (str "False")
  | VInt z => inl (str_of_int z)
  | VStr s => inl s
  | VBytes bs => inr bs
  end.

Definition dict := list (pystr * pyval).

(** ** Codecs *)

Definition byte_of_N (n : N) : byte := byte_of (Z.of_N n).

Definition is_surrogate (c : N) : bool := ((0xD800 <=? c) && (c <=? 0xDFFF))%N.

Definition utf8_encode_char (c : N) : option bytes :=
  (if c <? 0x80 then Some [byte_of_N c]
   else if c <? 0x800 then
     Some [byte_of_N (0xC0 + c / 64); byte_of_N (0x80 + c mod 64)]
   else if is_surrogate c then None
   else if c <? 0x10000 then
     Some [byte_of_N (0xE0 + c / 4096); byte_of_N (0x80 + (c / 64) mod 64);
           byte_of_N (0x80 + c mod 64)]
   else if c <? 0x110000 then
     Some [byte_of_N (0xF0 + c / 262144); byte_of_N (0x80 + (c / 4096) mod 64);
           byte_of_N (0x80 + (c / 64) mod 64); byte_of_N (0x80 + c mod 64)]
   else None)%N.

(** [s.encode("utf-8")], strict: a lone surrogate raises. *)
Fixpoint utf8_encode (s : pystr) : option bytes :=
  match s with
  | [] => Some []
  | c :: rest =>
      match utf8_encode_char c, utf8_encode rest with
      | Some bs, Some bs' => Some (bs ++ bs')
      | _, _ => None
      end
  end.

Definition encode_utf8 (s : pystr) : result bytes :=
  or_raise (UnicodeEncodeError "utf-8") (utf8_encode s).

(** [bytes(s, "ascii")] *)
Fixpoint ascii_encode (s : pystr) : option bytes :=
  match s with
  | [] => Some []
  | c :: rest =>
      if (c <? 128)%N then
        match ascii_encode rest with
        | Some bs => Some (byte_of_N c :: bs)
        | None => None
        end
      else None
  end.

Definition encode_ascii (s : pystr) : result bytes :=
  or_raise (UnicodeEncodeError "ascii") (ascii_encode s).

Definition is_cont (c : N) : bool := ((0x80 <=? c) && (c <=? 0xBF))%N.

(** [bs.decode("utf8")], strict: overlong forms, surrogates, values above
    U+10FFFF and truncated sequences are rejected. *)
Fixpoint utf8_decode (bs : bytes) : option pystr :=
  match bs with
  | [] => Some []
  | b0 :: rest =>
      let c0 := Byte.to_N b0 in
      if (c0 <? 0x80)%N then cons c0 <$> utf8_decode rest
      else if (c0 <? 0xC0)%N then None
      else if (c0 <? 0xE0)%N then
        match rest with
        | b1 :: rest1 =>
            let c1 := Byte.to_N b1 in
            let cp := ((c0 - 0xC0) * 64 + (c1 - 0x80))%N in
            if is_cont c1 && (0x80 <=? cp)%N
            then cons cp <$> utf8_decode rest1 else None
        | _ => None
        end
      else if (c0 <? 0xF0)%N then
        match rest with
        | b1 :: b2 :: rest2 =>
            let c1 := Byte.to_N b1 in
            let c2 := Byte.to_N b2 in
            let cp := ((c0 - 0xE0) * 4096 + (c1 - 0x80) * 64 + (c2 - 0x80))%N in
            if is_cont c1 && is_cont c2 && (0x800 <=? cp)%N
               && negb (is_surrogate cp)
            then cons cp <$> utf8_decode rest2 else None
        | _ => None
        end
      else if (c0 <? 0xF8)%N then
        match rest with
        | b1 :: b2 :: b3 :: rest3 =>
            let c1 := Byte.to_N b1 in
            let c2 := Byte.to_N b2 in
            let c3 := Byte.to_N b3 in
            let cp := ((c0 - 0xF0) * 262144 + (c1 - 0x80) * 4096
                       + (c2 - 0x80) * 64 + (c3 - 0x80))%N in
            if is_cont c1 && is_cont c2 && is_cont c3
               && (0x10000 <=? cp)%N && (cp <? 0x110000)%N
            then cons cp <$> utf8_decode rest3 else None
        | _ => None
        end
      else None
  end.

Definition decode_utf8 (bs : bytes) : result pystr :=
  or_raise (UnicodeDecodeError "utf-8") (utf8_decode bs).

(** ** urllib.parse (Python 3.7 and later: "~" is always safe) *)

Definition mem (c : N) (l : list N) : bool := existsb (N.eqb c) l.

Definition always_safe : list N :=
  str "ABCDEFGHIJKLMNOPQRSTUVWXYZabcdefghijklmnopqrstuvwxyz0123456789_.-~".

Definition hex_upper : list N := str "0123456789ABCDEF".

(** [_Quoter.__missing__]: [chr(b) if b in self.safe else '%{:02X}'.format(b)] *)
Definition quoter (safe : list N) (x : byte) : pystr :=
  let c := Byte.to_N x in
  if mem c (always_safe ++ safe) then [c]
  else [37%N; nth (N.to_nat (c / 16)) hex_upper 0%N;
        nth (N.to_nat (c mod 16)) hex_upper 0%N].

(** [quote_from_bytes]: [safe] is first reduced to its ASCII characters; the
    all-safe shortcut of the library returns the same string as the
    byte-by-byte path. *)
Definition quote_from_bytes (bs : bytes) (safe : pystr) : pystr :=
  let safe := List.filter (fun c => c <? 128)%N safe in
  flat_map (quoter safe) bs.

(** [quote(string, safe)], [string] a [str] (left) or [bytes] (right). *)
Definition quote (string : pystr + bytes) (safe : pystr) : result pystr :=
  match string with
  | inl s =>
      match s with
      | [] => Ok s
      | _ => bs ← encode_utf8 s; Ok (quote_from_bytes bs safe)
      end
  | inr bs => Ok (quote_from_bytes bs safe)
  end.

Definition has_space (string : pystr + bytes) : bool :=
  match string with
  | inl s => mem 32%N s
  | inr bs => mem 32%N (map Byte.to_N bs)
  end.

(** [s.replace(' ', '+')] *)
Definition replace_space_plus (s : pystr) : pystr :=
  map (fun c => if (c =? 32)%N then 43%N else c) s.

Definition quote_plus (string : pystr + bytes) (safe : pystr) : result pystr :=
  if negb (has_space string) then quote string safe
  else
    s ← quote string (safe ++ str " ");
    Ok (replace_space_plus s).

(** The loop body of [urlencode] for one [(k, v)]; keys are [str]. *)
Definition urlencode_item (kv : pystr * pyval) : result pystr :=
  let '(k, v) := kv in
  k' ← quote_plus (inl k) [];
  v' ← quote_plus (quotable v) [];
  Ok (k' ++ str "=" ++ v').

(** [urllib.parse.urlencode(query)] with the default [quote_via=quote_plus]. *)
Definition urlencode (query : dict) : result pystr :=
  l ← mapM urlencode_item query;
  Ok (join (str "&") l).

(** ** Ordering: [sorted(params.items())] *)

Fixpoint str_ltb (s t : pystr) : bool :=
  match s, t with
  | _, [] => false
  | [], _ :: _ => true
  | c :: s', d :: t' => (c <? d)%N || ((c =? d)%N && str_ltb s' t')
  end.

Definition str_leb (s t : pystr) : bool := negb (str_ltb t s).

(** Tuples coming from the items of a dict have pairwise distinct first
    components, so Python's tuple comparison is decided by the keys and never
    looks at the values. *)
Definition item_le (a b : pystr * pyval) : Prop := str_leb a.1 b.1 = true.

#[global] Instance item_le_dec : RelDecision item_le.
Proof. intros a b. unfold item_le. apply bool_eq_dec. Defined.

Definition sorted (items : dict) : dict := merge_sort item_le items.

(** ** The credential holder *)

Record Gallery := {
  api_location : pystr;
  api_key : pystr;
  api_secret : pystr
}.

(** The bodies of the three property setters up to the assignment: what they
    accept and what they raise. *)
Definition validate_api_location (loc : pyval) : result pystr :=
  if negb (truthy loc) then
    Raise (Exception (str "'api_location' cannot be empty"))
  else
    match loc with
    | VStr s => Ok s
    | _ => Raise (TypeError (str "Invalid type " ++ type_repr loc
                             ++ str " for variable 'api_location'"))
    end.

Definition validate_api_key (key : pyval) : result pystr :=
  if negb (truthy key) then
    Raise (Exception (str "'api_key' cannot be empty"))
  else
    match key with
    | VStr s => Ok s
    | _ => Raise (TypeError (str "Invalid type: " ++ type_repr key
                             ++ str " for variable 'api_key'"))
    end.

Definition validate_api_secret (secret_key : pyval) : result pystr :=
  if negb (truthy secret_key) then
    Raise (Exception (str "'api_secret' cannot be empty"))
  else
    match secret_key with
    | VStr s => Ok s
    | _ => Raise (TypeError (str "Invalid type " ++ type_repr secret_key
                             ++ str " for variable 'api_secret'"))
    end.

(** The setters: [self.api_location = loc] and its two siblings. *)
Definition set_api_location (self : Gallery) (loc : pyval) : result Gallery :=
  s ← validate_api_location loc;
  Ok {| api_location := s; api_key := api_key self;
        api_secret := api_secret self |}.

Definition set_api_key (self : Gallery) (key : pyval) : result Gallery :=
  s ← validate_api_key key;
  Ok {| api_location := api_location self; api_key := s;
        api_secret := api_secret self |}.

Definition set_api_secret (self : Gallery) (secret_key : pyval)
  : result Gallery :=
  s ← validate_api_secret secret_key;
  Ok {| api_location := api_location self; api_key := api_key self;
        api_secret := s |}.

(** [Gallery.__init__]: the three assignments go through the setters, in this
    order; the instance exists once all three have returned. *)
Definition Gallery_init (api_location api_key api_secret : pyval)
  : result Gallery :=
  loc ← validate_api_location api_location;
  key ← validate_api_key api_key;
  secret ← validate_api_secret api_secret;
  Ok {| api_location := loc; api_key := key; api_secret := secret |}.

(** ** Dicts *)

(** [d[k]] for a dict with [str] keys, [None] when [k not in d]. *)
Fixpoint dict_get {V} (k : pystr) (d : list (pystr * V)) : option V :=
  match d with
  | [] => None
  | (k', v) :: rest => if decide (k' = k) then Some v else dict_get k rest
  end.

(** [d[k] = v]: an existing key keeps its position, a new key goes last. *)
Fixpoint dict_set (k : pystr) (v : pyval) (d : dict) : dict :=
  match d with
  | [] => [(k, v)]
  | (k', v') :: rest =>
      if decide (k' = k) then (k', v) :: rest else (k', v') :: dict_set k v rest
  end.

(** ** The world: heap of shared dicts, random source, clock, network *)

Inductive http_verb := GET | POST.

Definition ref := nat.

Section World.

(** Python objects that travel as JSON: request payloads and parsed
    response bodies. *)
Context {PyObj : Type}.

(** One call of [requests.get] / [requests.post], with the keyword arguments
    it was given ([None] for an argument that was not passed). *)
Record Request := {
  req_verb : http_verb;
  req_url : pystr;
  req_params : dict;
  req_json : option PyObj;
  req_headers : option (list (pystr * pystr))
}.

Record Response := {
  status_code : Z;
  content : bytes
}.

(** [tape] is the random source: cell [cursor] is the next raw draw.
    [clock] gives the successive readings of [floor(time.time())].
    [wire n] is what the network answers to the [n]-th request, [None] for
    a transport failure. [sent] is the log of the requests issued. *)
Record World := {
  heap : list dict;
  tape : nat -> nat;
  cursor : nat;
  clock : nat -> Z;
  ticks : nat;
  sent : list Request;
  wire : nat -> option Response
}.

Definition with_heap (h : list dict) (w : World) : World :=
  {| heap := h; tape := tape w; cursor := cursor w; clock := clock w;
     ticks := ticks w; sent := sent w; wire := wire w |}.
Definition with_cursor (c : nat) (w : World) : World :=
  {| heap := heap w; tape := tape w; cursor := c; clock := clock w;
     ticks := ticks w; sent := sent w; wire := wire w |}.
Definition with_ticks (t : nat) (w : World) : World :=
  {| heap := heap w; tape := tape w; cursor := cursor w; clock := clock w;
     ticks := t; sent := sent w; wire := wire w |}.
Definition with_sent (l : list Request) (w : World) : World :=
  {| heap := heap w; tape := tape w; cursor := cursor w; clock := clock w;
     ticks := ticks w; sent := l; wire := wire w |}.

(** State and exceptions: the effects of a raising computation stay. *)
Definition M (A : Type) : Type := World -> result A * World.

Definition run {A} (m : M A) (w : World) : result A * World := m w.

#[global] Instance M_ret : MRet M := fun A a w => (Ok a, w).
#[global] Instance M_bind : MBind M := fun A B f m w =>
  match m w with
  | (Ok a, w') => f a w'
  | (Raise e, w') => (Raise e, w')
  end.

Definition lift {A} (r : result A) : M A := fun w => (r, w).

(** *** Heap *)

Definition new_dict (d : dict) : M ref := fun w =>
  (Ok (length (heap w)), with_heap (heap w ++ [d]) w).

(** [params.items()] *)
Definition dict_items (r : ref) : M dict := fun w =>
  (or_raise SystemError (heap w !! r), w).

(** [params.update({k: v})] *)
Definition dict_update (r : ref) (k : pystr) (v : pyval) : M unit := fun w =>
  match heap w !! r with
  | Some d => (Ok tt, with_heap (<[r := dict_set k v d]> (heap w)) w)
  | None => (Raise SystemError, w)
  end.

(** *** random, time *)

(** A raw draw reduced below [n]: every sequence of draws below [n] is the
    reading of some tape. *)
Definition randbelow (n : nat) : M nat := fun w =>
  (Ok (tape w (cursor w) mod n)%nat, with_cursor (S (cursor w)) w).

(** [random.choice(seq)] is [seq[randbelow(len(seq))]]. *)
Definition random_choice (seq : pystr) : M pystr :=
  match seq with
  | [] => lift (Raise IndexError)
  | _ => i ← randbelow (length seq); mret [nth i seq 0%N]
  end.

(** [int(math.floor(time.time()))] *)
Definition time_floor : M Z := fun w =>
  (Ok (clock w (ticks w)), with_ticks (S (ticks w)) w).

(** *** requests *)

Definition requests_call (v : http_verb) (url : pystr) (params : ref)
    (json : option PyObj) (headers : option (list (pystr * pystr)))
  : M Response := fun w =>
  match heap w !! params with
  | None => (Raise SystemError, w)
  | Some d =>
      let req := {| req_verb := v; req_url := url; req_params := d;
                    req_json := json; req_headers := headers |} in
      let w' := with_sent (sent w ++ [req]) w in
      (or_raise ConnectionError (wire w (length (sent w))), w')
  end.

(** [requests.get(url, params=params)] *)
Definition requests_get (url : pystr) (params : ref) : M Response :=
  requests_call GET url params None None.

(** [requests.post(url, json=..., headers=..., params=params)] *)
Definition requests_post (url : pystr) (json : option PyObj)
    (headers : option (list (pystr * pystr))) (params : ref) : M Response :=
  requests_call POST url params json headers.

End World.

Arguments Request : clear implicits.
Arguments World : clear implicits.
Arguments M : clear implicits.

(** ** The methods of [Gallery] *)

Definition ascii_uppercase : pystr := str "ABCDEFGHIJKLMNOPQRSTUVWXYZ".
Definition ascii_lowercase : pystr := str "abcdefghijklmnopqrstuvwxyz".
Definition digits : pystr := str "0123456789".

Section Methods.

Context {PyObj : Type}.

(** [json.loads], [None] when the text is not a JSON document. *)
Variable json_loads : pystr -> option PyObj.

(** [str.upper] on the code points above ASCII (the interpreter's Unicode
    table; one code point may map to several). *)
Variable upper_nonascii : N -> pystr.

Definition upper_char (c : N) : pystr :=
  if (c <? 128)%N then
    [if ((97 <=? c) && (c <=? 122))%N then (c - 32)%N else c]
  else upper_nonascii c.

Definition str_upper (s : pystr) : pystr := flat_map upper_char s.

(** The list comprehension of [generate_nonce]. *)
Fixpoint choices (n : nat) (seq : pystr) : M PyObj (list pystr) :=
  match n with
  | O => mret []
  | S k => c ← random_choice seq; cs ← choices k seq; mret (c :: cs)
  end.

(** [generate_nonce(length=5)]: [None] stands for the argument left out. *)
Definition generate_nonce (length : option Z) : M PyObj pystr :=
  let length := default 5 length in
  let tmp_string := ascii_uppercase ++ digits ++ ascii_lowercase in
  cs ← choices (Z.to_nat length) tmp_string;
  mret (join [] cs).

Definition build_oauth_params (self : Gallery) : M PyObj ref :=
  nonce ← generate_nonce (Some 5);
  now ← time_floor;
  new_dict [
    (str "oauth_consumer_key", VStr (api_key self));
    (str "oauth_nonce", VStr nonce);
    (str "oauth_signature_method", VStr (str "HMAC-SHA1"));
    (str "oauth_timestamp", VStr (str_of_int now));
    (str "oauth_version", VStr (str "1.0"))
  ].

Definition generate_signature (self : Gallery) (http_method url : pystr)
    (params : ref) : M PyObj bytes :=
  let quote := fun x => quote (inl x) (str "~") in
  items ← dict_items params;
  let sorted_params := sorted items in
  normalized_params ← lift (urlencode sorted_params);
  let method := str_upper http_method in
  quoted_url ← lift (quote url);
  quoted_params ← lift (quote normalized_params);
  let base_string := join (str "&") [method; quoted_url; quoted_params] in
  secret_bytes ← lift (encode_ascii (join (str "&") [api_secret self; []]));
  base_bytes ← lift (encode_ascii base_string);
  mret (b64encode (hmac_sha1 secret_bytes base_bytes)).

(** The signature base string built from the items of [params]. *)
Definition base_string_of (http_method url : pystr) (items : dict)
  : result pystr :=
  normalized_params ← urlencode (sorted items);
  quoted_url ← quote (inl url) (str "~");
  quoted_params ← quote (inl normalized_params) (str "~");
  Ok (join (str "&") [str_upper http_method; quoted_url; quoted_params]).

(** The value [generate_signature] returns, as a function of the secret and
    of the items read from [params] (see [generate_signature_run]). *)
Definition signature_of (secret http_method url : pystr) (items : dict)
  : result bytes :=
  base_string ← base_string_of http_method url items;
  secret_bytes ← encode_ascii (join (str "&") [secret; []]);
  base_bytes ← encode_ascii base_string;
  Ok (b64encode (hmac_sha1 secret_bytes base_bytes)).

Definition loads (text : pystr) : M PyObj PyObj :=
  lift (or_raise JSONDecodeError (json_loads text)).

Definition subscription (self : Gallery) : M PyObj (Response * PyObj) :=
  let url := api_location self ++ str "/v1/workflows/subscription/" in
  params ← build_oauth_params self;
  signature ← generate_signature self (str "GET") url params;
  dict_update params (str "oauth_signature") (VBytes signature);;
  output ← requests_get url params;
  text ← lift (decode_utf8 (content output));
  output_content ← loads text;
  mret (output, output_content).

Definition questions (self : Gallery) (app_id : pystr)
  : M PyObj (Response * PyObj) :=
  let url := api_location self ++ str "/v1/workflows/" ++ app_id
             ++ str "/questions/" in
  params ← build_oauth_params self;
  signature ← generate_signature self (str "GET") url params;
  dict_update params (str "oauth_signature") (VBytes signature);;
  output ← requests_get url params;
  text ← lift (decode_utf8 (content output));
  output_content ← loads text;
  mret (output, output_content).

(** [**kwargs] is the list of the keyword arguments of the call. *)
Definition execute_workflow (self : Gallery) (app_id : pystr)
    (kwargs : list (pystr * PyObj)) : M PyObj (Response * PyObj) :=
  let url := api_location self ++ str "/v1/workflows/" ++ app_id
             ++ str "/jobs/" in
  params ← build_oauth_params self;
  signature ← generate_signature self (str "POST") url params;
  dict_update params (str "oauth_signature") (VBytes signature);;
  output ← match dict_get (str "payload") kwargs with
           | Some payload =>
               requests_post url (Some payload)
                 (Some [(str "Content-Type", str "application/json")]) params
           | None => requests_post url None None params
           end;
  text ← lift (decode_utf8 (content output));
  output_content ← loads text;
  mret (output, output_content).

Definition get_jobs (self : Gallery) (app_id : pystr)
  : M PyObj (Response * PyObj) :=
  let url := api_location self ++ str "/v1/workflows/" ++ app_id
             ++ str "/jobs/" in
  params ← build_oauth_params self;
  signature ← generate_signature self (str "GET") url params;
  dict_update params (str "oauth_signature") (VBytes signature);;
  output ← requests_get url params;
  text ← lift (decode_utf8 (content output));
  output_content ← loads text;
  mret (output, output_content).

Definition get_job_status (self : Gallery) (job_id : pystr)
  : M PyObj (Response * PyObj) :=
  let url := api_location self ++ str "/v1/jobs/" ++ job_id ++ str "/" in
  params ← build_oauth_params self;
  signature ← generate_signature self (str "GET") url params;
  dict_update params (str "oauth_signature") (VBytes signature);;
  output ← requests_get url params;
  text ← lift (decode_utf8 (content output));
  output_content ← loads text;
  mret (output, output_content).

Definition get_job_output (self : Gallery) (job_id output_id : pystr)
  : M PyObj (Response * pystr) :=
  let url := api_location self ++ str "/v1/jobs/" ++ job_id
             ++ str "/output/" ++ output_id ++ str "/" in
  params ← build_oauth_params self;
  signature ← generate_signature self (str "GET") url params;
  dict_update params (str "oauth_signature") (VBytes signature);;
  output ← requests_get url params;
  output_content ← lift (decode_utf8 (content output));
  mret (output, output_content).

Definition get_workflows (self : Gallery) : M PyObj (Response * PyObj) :=
  let url := api_location self ++ str "/admin/v1/workflows/" in
  params ← build_oauth_params self;
  signature ← generate_signature self (str "GET") url params;
  dict_update params (str "oauth_signature") (VBytes signature);;
  output ← requests_get url params;
  text ← lift (decode_utf8 (content output));
  output_content ← loads text;
  mret (output, output_content).

Definition get_app (self : Gallery) (app_id : pystr)
  : M PyObj (Response * PyObj) :=
  let url := api_location self ++ str "/v1/workflows/" ++ app_id
             ++ str "/package/" in
  params ← build_oauth_params self;
  signature ← generate_signature self (str "GET") url params;
  dict_update params (str "oauth_signature") (VBytes signature);;
  output ← requests_get url params;
  text ← lift (decode_utf8 (content output));
  output_content ← loads text;
  mret (output, output_content).

End Methods.

(** [digest.hex()], to quote published digests. *)
Definition hex_digits : bytes := lit "0123456789abcdef".
Definition hexdigest (bs : bytes) : bytes :=
  flat_map (fun x => [nth (Z.to_nat (byte_val x / 16)) hex_digits x00;
                      nth (Z.to_nat (byte_val x mod 16)) hex_digits x00]) bs.

(** ** Vocabulary of the statements *)

(** The parameters and URL of the pinned signature vector. *)
Definition known_params : dict := [
  (str "oauth_consumer_key", VStr (str "k"));
  (str "oauth_nonce", VStr (str "abcde"));
  (str "oauth_signature_method", VStr (str "HMAC-SHA1"));
  (str "oauth_timestamp", VStr (str "1000000000"));
  (str "oauth_version", VStr (str "1.0"))
].

Definition known_url : pystr :=
  str "https://example.com/v1/workflows/subscription/".

Definition known_base_string : string :=
  "GET&https%3A%2F%2Fexample.com%2Fv1%2Fworkflows%2Fsubscription%2F&oauth_consumer_key%3Dk%26oauth_nonce%3Dabcde%26oauth_signature_method%3DHMAC-SHA1%26oauth_timestamp%3D1000000000%26oauth_version%3D1.0".

(** The characters of [[A-Za-z0-9]]. *)
Definition alnum (c : N) : bool :=
  (((48 <=? c) && (c <=? 57)) || ((65 <=? c) && (c <=? 90))
   || ((97 <=? c) && (c <=? 122)))%N.

(** The alphabet [generate_nonce] draws from. *)
Definition alphabet : pystr := ascii_uppercase ++ digits ++ ascii_lowercase.

(** The next [n] draws below 62 that a world holds. *)
Definition draws {PyObj} (w : World PyObj) (n : nat) : list nat :=
  map (fun k => (tape w (cursor w + k) mod 62)%nat) (seq 0 n).

(** Text that [bytes(s, "ascii")] accepts. *)
Definition ascii_only (s : pystr) : Prop := Forall (fun c => (c < 128)%N) s.

(** Unicode scalar values: code points other than the surrogates. Text made
    of them is what the strict UTF-8 encoder accepts. *)
Definition scalar (c : N) : bool := (c <? 0x110000)%N && negb (is_surrogate c).
Definition well_formed (s : pystr) : Prop := Forall (fun c => scalar c = true) s.

(** What [quote] is given is free of lone surrogates (bytes always are). *)
Definition quotable_well_formed (x : pystr + bytes) : Prop :=
  match x with
  | inl s => well_formed s
  | inr _ => True
  end.

Definition item_well_formed (kv : pystr * pyval) : Prop :=
  well_formed kv.1 /\ quotable_well_formed (quotable kv.2).

(** "An empty string or not a string". *)
Definition rejected (v : pyval) : Prop := v = VStr [] \/ isinstance_str v = false.

Definition example_gallery : Gallery :=
  {| api_location := str "https://example.com"; api_key := str "k";
     api_secret := str "s" |}.

(** A world, an upper-casing table and a JSON reader to run the methods on:
    the heap holds the pinned parameters in two insertion orders and one dict
    with a value outside ASCII; the network answers every request with the
    body "{}". *)
Definition accented_params : dict := [(str "oauth_nonce", VStr [233%N])].

Definition example_world : World unit :=
  {| heap := [known_params; rev known_params; accented_params];
     tape := fun n => (7 * n + 3)%nat; cursor := 0;
     clock := fun _ => 1000000000; ticks := 0; sent := [];
     wire := fun _ => Some {| status_code := 200; content := lit "{}" |} |}.

Definition plain_upper (c : N) : pystr := [c].

Definition example_loads (text : pystr) : option unit :=
  if decide (text = str "{}") then Some tt else None.

Definition accented_gallery : Gallery :=
  {| api_location := str "https://example.com"; api_key := str "k";
     api_secret := [233%N] |}.

(** ** The endpoint operations, as one family

    [operation] names a method of [Gallery] together with its arguments, so
    that a statement can range over all of them; [call] runs the method and
    tags what it returns as parsed JSON or as text. *)

Inductive operation {PyObj : Type} :=
| Subscription
| Questions (app_id : pystr)
| ExecuteWorkflow (app_id : pystr) (kwargs : list (pystr * PyObj))
| GetJobs (app_id : pystr)
| GetJobStatus (job_id : pystr)
| GetJobOutput (job_id output_id : pystr)
| GetWorkflows
| GetApp (app_id : pystr).
Arguments operation : clear implicits.

Inductive body {PyObj : Type} :=
| Parsed (j : PyObj)
| Text (s : pystr).
Arguments body : clear implicits.

Definition tagged {PyObj A B} (tag : A -> B)
    (out : result (Response * A) * World PyObj)
  : result (Response * B) * World PyObj :=
  (match out.1 with
   | Ok (output, output_content) => Ok (output, tag output_content)
   | Raise e => Raise e
   end, out.2).

Definition call {PyObj} (json_loads : pystr -> option PyObj)
    (upper_nonascii : N -> pystr) (op : operation PyObj) (g : Gallery)
    (w : World PyObj) : result (Response * body PyObj) * World PyObj :=
  match op with
  | Subscription =>
      tagged Parsed (run (subscription json_loads upper_nonascii g) w)
  | Questions app_id =>
      tagged Parsed (run (questions json_loads upper_nonascii g app_id) w)
  | ExecuteWorkflow app_id kwargs =>
      tagged Parsed
        (run (execute_workflow json_loads upper_nonascii g app_id kwargs) w)
  | GetJobs app_id =>
      tagged Parsed (run (get_jobs json_loads upper_nonascii g app_id) w)
  | GetJobStatus job_id =>
      tagged Parsed (run (get_job_status json_loads upper_nonascii g job_id) w)
  | GetJobOutput job_id output_id =>
      tagged Text (run (get_job_output upper_nonascii g job_id output_id) w)
  | GetWorkflows =>
      tagged Parsed (run (get_workflows json_loads upper_nonascii g) w)
  | GetApp app_id =>
      tagged Parsed (run (get_app json_loads upper_nonascii g app_id) w)
  end.

(** The method string, the [requests] function and the URL of an operation,
    read off the first two lines of each method. *)
Definition op_method {PyObj} (op : operation PyObj) : pystr :=
  match op with
  | ExecuteWorkflow _ _ => str "POST"
  | _ => str "GET"
  end.

Definition op_verb {PyObj} (op : operation PyObj) : http_verb :=
  match op with
  | ExecuteWorkflow _ _ => POST
  | _ => GET
  end.

Definition op_url {PyObj} (g : Gallery) (op : operation PyObj) : pystr :=
  match op with
  | Subscription => api_location g ++ str "/v1/workflows/subscription/"
  | Questions app_id =>
      api_location g ++ str "/v1/workflows/" ++ app_id ++ str "/questions/"
  | ExecuteWorkflow app_id _ =>
      api_location g ++ str "/v1/workflows/" ++ app_id ++ str "/jobs/"
  | GetJobs app_id =>
      api_location g ++ str "/v1/workflows/" ++ app_id ++ str "/jobs/"
  | GetJobStatus job_id =>
      api_location g ++ str "/v1/jobs/" ++ job_id ++ str "/"
  | GetJobOutput job_id output_id =>
      api_location g ++ str "/v1/jobs/" ++ job_id ++ str "/output/"
        ++ output_id ++ str "/"
  | GetWorkflows => api_location g ++ str "/admin/v1/workflows/"
  | GetApp app_id =>
      api_location g ++ str "/v1/workflows/" ++ app_id ++ str "/package/"
  end.

(** The identifiers of an operation are free of lone surrogates. *)
Definition op_well_formed {PyObj} (op : operation PyObj) : Prop :=
  match op with
  | Subscription | GetWorkflows => True
  | Questions a | ExecuteWorkflow a _ | GetJobs a | GetJobStatus a | GetApp a =>
      well_formed a
  | GetJobOutput j o => well_formed j /\ well_formed o
  end.

(** The dict [build_oauth_params] allocates in world [w]. *)
Definition oauth_dict {PyObj} (g : Gallery) (w : World PyObj) : dict := [
  (str "oauth_consumer_key", VStr (api_key g));
  (str "oauth_nonce", VStr (map (fun i => nth i alphabet 0%N) (draws w 5)));
  (str "oauth_signature_method", VStr (str "HMAC-SHA1"));
  (str "oauth_timestamp", VStr (str_of_int (clock w (ticks w))));
  (str "oauth_version", VStr (str "1.0"))
].

(** The world once [build_oauth_params] has run and the dict holds [d]. *)
Definition with_params {PyObj} (d : dict) (w : World PyObj) : World PyObj :=
  {| heap := heap w ++ [d]; tape := tape w; cursor := cursor w + 5;
     clock := clock w; ticks := S (ticks w); sent := sent w;
     wire := wire w |}.

Definition signed_dict {PyObj} (g : Gallery) (w : World PyObj) (sig : bytes)
  : dict :=
  oauth_dict g w ++ [(str "oauth_signature", VBytes sig)].

(** The keyword arguments an operation hands to [requests] besides
    [params]: only [execute_workflow] called with a payload passes any. *)
Definition op_json {PyObj} (op : operation PyObj) : option PyObj :=
  match op with
  | ExecuteWorkflow _ kwargs => dict_get (str "payload") kwargs
  | _ => None
  end.

Definition op_headers {PyObj} (op : operation PyObj)
  : option (list (pystr * pystr)) :=
  match op_json op with
  | Some _ => Some [(str "Content-Type", str "application/json")]
  | None => None
  end.

Definition op_request {PyObj} (g : Gallery) (op : operation PyObj)
    (w : World PyObj) (sig : bytes) : Request PyObj :=
  {| req_verb := op_verb op; req_url := op_url g op;
     req_params := signed_dict g w sig;
     req_json := op_json op; req_headers := op_headers op |}.

(** What an operation makes of a response: the UTF-8 text of the body, parsed
    as JSON by every operation except [get_job_output]. *)
Definition op_body {PyObj} (json_loads : pystr -> option PyObj)
    (op : operation PyObj) (resp : Response)
  : result (Response * body PyObj) :=
  text ← decode_utf8 (content resp);
  match op with
  | GetJobOutput _ _ => Ok (resp, Text text)
  | _ => j ← or_raise JSONDecodeError (json_loads text); Ok (resp, Parsed j)
  end.

(** ** Vocabulary of the further properties *)

(** The decimal digits. *)
Definition is_digit (c : N) : bool := ((48 <=? c) && (c <=? 57))%N.

(** The keys [build_oauth_params] writes, in the order it writes them. *)
Definition oauth_keys : list pystr := [
  str "oauth_consumer_key"; str "oauth_nonce"; str "oauth_signature_method";
  str "oauth_timestamp"; str "oauth_version"
].

(** The parameters of a request other than the signature itself: what a
    server signs again to check the request. *)
Definition without_signature (d : dict) : dict :=
  List.filter (fun kv => negb (bool_decide (kv.1 = str "oauth_signature"))) d.

(** The characters [quote] can produce with safe "~": the unreserved ones and
    the percent sign. *)
Definition url_char (c : N) : bool := mem c always_safe || (c =? 37)%N.

(** The signature of the first [subscription] call in [example_world]. *)
Definition example_signature : bytes :=
  Eval vm_compute in
    match signature_of plain_upper (api_secret example_gallery) (str "GET")
            (api_location example_gallery ++ str "/v1/workflows/subscription/")
            (oauth_dict example_gallery example_world) with
    | Ok sig => sig
    | Raise _ => []
    end.

(** ** The parameter encoding in the words of the specification

    "The encoding applied to each parameter key and value agrees, on every
    input character (including space), with the encoding applied to the URL":
    keys and values go through [quote] with safe "~", as the URL does. The
    three definitions below are [urlencode_item], [urlencode] and
    [base_string_of] with that one change, to be compared with them. *)
Definition claimed_urlencode_item (kv : pystr * pyval) : result pystr :=
  let '(k, v) := kv in
  k' ← quote (inl k) (str "~");
  v' ← quote (quotable v) (str "~");
  Ok (k' ++ str "=" ++ v').

Definition claimed_urlencode (query : dict) : result pystr :=
  l ← mapM claimed_urlencode_item query;
  Ok (join (str "&") l).

Definition claimed_base_string_of (upper_nonascii : N -> pystr)
    (http_method url : pystr) (items : dict) : result pystr :=
  normalized_params ← claimed_urlencode (sorted items);
  quoted_url ← quote (inl url) (str "~");
  quoted_params ← quote (inl normalized_params) (str "~");
  Ok (join (str "&")
        [str_upper upper_nonascii http_method; quoted_url; quoted_params]).

(** The pinned parameters with a consumer key that holds a space. *)
Definition spaced_params : dict := [
  (str "oauth_consumer_key", VStr (str "a b"));
  (str "oauth_nonce", VStr (str "abcde"));
  (str "oauth_signature_method", VStr (str "HMAC-SHA1"));
  (str "oauth_timestamp", VStr (str "1000000000"));
  (str "oauth_version", VStr (str "1.0"))
].

Definition spaced_base_string : string :=
  "GET&https%3A%2F%2Fexample.com%2Fv1%2Fworkflows%2Fsubscription%2F&oauth_consumer_key%3Da%2Bb%26oauth_nonce%3Dabcde%26oauth_signature_method%3DHMAC-SHA1%26oauth_timestamp%3D1000000000%26oauth_version%3D1.0".

Definition claimed_spaced_base_string : string :=
  "GET&https%3A%2F%2Fexample.com%2Fv1%2Fworkflows%2Fsubscription%2F&oauth_consumer_key%3Da%2520b%26oauth_nonce%3Dabcde%26oauth_signature_method%3DHMAC-SHA1%26oauth_timestamp%3D1000000000%26oauth_version%3D1.0".

(** * Properties *)

(** Published test vectors (FIPS 180, RFC 2202, RFC 4648). *)
Example sha1_abc :
  hexdigest (SHA1.digest (lit "abc"))
  = lit "a9993e364706816aba3e25717850c26c9cd0d89d".
Proof. vm_compute. reflexivity. Qed.

Example sha1_empty :
  hexdigest (SHA1.digest []) = lit "da39a3ee5e6b4b0d3255bfef95601890afd80709".
Proof. vm_compute. reflexivity. Qed.

Example sha1_two_blocks :
  hexdigest (SHA1.digest
    (lit "abcdbcdecdefdefgefghfghighijhijkijkljklmklmnlmnomnopnopq"))
  = lit "84983e441c3bd26ebaae4aa1f95129e5e54670f1".
Proof. vm_compute. reflexivity. Qed.

Example hmac_rfc2202_2 :
  hexdigest (hmac_sha1 (lit "Jefe") (lit "what do ya want for nothing?"))
  = lit "effcdf6ae5eb2fa2d27416d5f184df9c259a7c79".
Proof. vm_compute. reflexivity. Qed.

Example hmac_rfc2202_long_key :
  hexdigest (hmac_sha1 (repeat xaa 80)
    (lit "Test Using Larger Than Block-Size Key - Hash Key First"))
  = lit "aa4ae5e15272d00e95705637ce8a3b55ed402112".
Proof. vm_compute. reflexivity. Qed.

Example b64_rfc4648 :
  b64encode (lit "foobar") = lit "Zm9vYmFy"
  /\ b64encode (lit "fooba") = lit "Zm9vYmE="
  /\ b64encode (lit "foob") = lit "Zm9vYg==".
Proof. vm_compute. auto. Qed.

(** Reduce the binds of the [result] monad once their head is known. *)
Lemma bind_Ok {A B} (a : A) (f : A -> result B) : (Ok a ≫= f) = f a.
Proof. reflexivity. Qed.

Lemma bind_Raise {A B} (e : exn) (f : A -> result B) : (Raise e ≫= f) = Raise e.
Proof. reflexivity. Qed.

Ltac rstep := repeat (rewrite bind_Ok || rewrite bind_Raise); cbv beta.
Ltac rstep_in H :=
  repeat (rewrite bind_Ok in H || rewrite bind_Raise in H); cbv beta in H.

Section Properties.

Context {PyObj : Type}.
Variable json_loads : pystr -> option PyObj.
Variable upper_nonascii : N -> pystr.

Implicit Types (w : World PyObj) (g self : Gallery) (r : ref).

(** ** Signing reads the heap and nothing else *)

Lemma generate_signature_run g http_method url r w :
  run (generate_signature upper_nonascii g http_method url r) w
  = (d ← or_raise SystemError (heap w !! r);
     signature_of upper_nonascii (api_secret g) http_method url d, w).
Proof.
  cbv beta iota zeta delta [run generate_signature signature_of
    base_string_of dict_items lift mbind M_bind result_bind mret M_ret
    or_raise].
  destruct (heap w !! r) as [d|]; [|reflexivity].
  destruct (urlencode (sorted d)) as [np|]; [|reflexivity].
  destruct (quote (inl url) (str "~")) as [qu|]; [|reflexivity].
  destruct (quote (inl np) (str "~")) as [qp|]; [|reflexivity].
  destruct (encode_ascii (join (str "&") [api_secret g; []]));
    [|reflexivity].
  destruct (encode_ascii _); reflexivity.
Qed.

Lemma heap_with_heap (h : list dict) w : heap (with_heap h w) = h.
Proof. reflexivity. Qed.

Lemma known_vector_value :
  signature_of upper_nonascii (str "s") (str "GET") known_url known_params
  = Ok (lit "DuUr95xl5TO7tP4agwjvGOHEAb8=").
Proof. vm_compute. reflexivity. Qed.

(** C1. For the pinned method, URL, parameters and the secret "s",
    [generate_signature] returns "DuUr95xl5TO7tP4agwjvGOHEAb8=", the value of
    the reference HMAC-SHA1 implementation; it is the base64 encoding of the
    HMAC-SHA1 digest keyed with "s&" over the base string
    GET & quoted URL & quoted sorted parameter string. *)
Theorem known_vector_signature (loc key : pystr) w :
  let g := {| api_location := loc; api_key := key; api_secret := str "s" |} in
  run (params ← new_dict known_params;
       generate_signature upper_nonascii g (str "GET") known_url params) w
  = (Ok (lit "DuUr95xl5TO7tP4agwjvGOHEAb8="),
     with_heap (heap w ++ [known_params]) w)
  /\ base_string_of upper_nonascii (str "GET") known_url known_params
     = Ok (str known_base_string)
  /\ b64encode (hmac_sha1 (lit "s&") (lit known_base_string))
     = lit "DuUr95xl5TO7tP4agwjvGOHEAb8=".
Proof.
  intros g. split; [|split; vm_compute; reflexivity].
  unfold run. unfold mbind at 1. unfold M_bind, new_dict.
  pose proof (generate_signature_run g (str "GET") known_url
                (length (heap w)) (with_heap (heap w ++ [known_params]) w))
    as Hrun.
  unfold run in Hrun. rewrite Hrun, heap_with_heap.
  rewrite list_lookup_middle by reflexivity.
  cbv beta iota delta [or_raise mbind result_bind].
  change (api_secret g) with (str "s").
  rewrite known_vector_value. reflexivity.
Qed.

(** ** Credentials *)

Lemma validate_location_spec v :
  validate_api_location v
  = match v with
    | VStr (c :: s) => Ok (c :: s)
    | VStr [] | VNone | VBool false | VInt 0 | VBytes [] =>
        Raise (Exception (str "'api_location' cannot be empty"))
    | _ => Raise (TypeError (str "Invalid type " ++ type_repr v
                             ++ str " for variable 'api_location'"))
    end.
Proof. destruct v as [|[]|[]|[]|[]]; reflexivity. Qed.

Lemma validate_key_spec v :
  validate_api_key v
  = match v with
    | VStr (c :: s) => Ok (c :: s)
    | VStr [] | VNone | VBool false | VInt 0 | VBytes [] =>
        Raise (Exception (str "'api_key' cannot be empty"))
    | _ => Raise (TypeError (str "Invalid type: " ++ type_repr v
                             ++ str " for variable 'api_key'"))
    end.
Proof. destruct v as [|[]|[]|[]|[]]; reflexivity. Qed.

Lemma validate_secret_spec v :
  validate_api_secret v
  = match v with
    | VStr (c :: s) => Ok (c :: s)
    | VStr [] | VNone | VBool false | VInt 0 | VBytes [] =>
        Raise (Exception (str "'api_secret' cannot be empty"))
    | _ => Raise (TypeError (str "Invalid type " ++ type_repr v
                             ++ str " for variable 'api_secret'"))
    end.
Proof. destruct v as [|[]|[]|[]|[]]; reflexivity. Qed.

Lemma rejected_raises v :
  rejected v ->
  (exists e, validate_api_location v = Raise e)
  /\ (exists e, validate_api_key v = Raise e)
  /\ (exists e, validate_api_secret v = Raise e).
Proof.
  intros [->|Hv]; [repeat split; eexists; reflexivity|].
  destruct v as [|[]|[]|?|[]]; try discriminate Hv;
    repeat split; eexists; reflexivity.
Qed.

Lemma accepted_or_rejected v :
  {s | v = VStr s /\ s <> nil } + {rejected v}.
Proof.
  destruct v as [| | |[|c s]|]; try (right; right; reflexivity).
  - right. left. reflexivity.
  - left. exists (c :: s). split; [reflexivity|discriminate].
Qed.

(** C3 (as amended). The stored credentials change through the validating
    setters and through nothing else: assigning a non-empty string succeeds
    and replaces that one field, leaving the other two as they were;
    assigning anything else raises and yields no changed instance; and
    signing uses the secret stored in the instance it is called on. *)
Theorem credentials_change_through_setters g (v : pyval) :
  match v with
  | VStr (c :: s) =>
      set_api_location g v
      = Ok {| api_location := c :: s; api_key := api_key g;
              api_secret := api_secret g |}
      /\ set_api_key g v
         = Ok {| api_location := api_location g; api_key := c :: s;
                 api_secret := api_secret g |}
      /\ set_api_secret g v
         = Ok {| api_location := api_location g; api_key := api_key g;
                 api_secret := c :: s |}
  | _ =>
      (exists e, set_api_location g v = Raise e)
      /\ (exists e, set_api_key g v = Raise e)
      /\ (exists e, set_api_secret g v = Raise e)
  end
  /\ forall http_method url r w,
       run (generate_signature upper_nonascii g http_method url r) w
       = (d ← or_raise SystemError (heap w !! r);
          signature_of upper_nonascii (api_secret g) http_method url d, w).
Proof.
  split; [|intros; apply generate_signature_run].
  unfold set_api_location, set_api_key, set_api_secret.
  rewrite validate_location_spec, validate_key_spec, validate_secret_spec.
  destruct v as [|[]|[]|[]|[]]; repeat split; try reflexivity;
    eexists; reflexivity.
Qed.

(** C4. Three non-empty strings construct a [Gallery] that stores them
    unchanged. A field that is the empty string or not a string makes the
    construction raise, and makes the assignment to that field raise; the
    failure is raised by the validation alone, with the request log of the
    world untouched. *)
Theorem credentials_validated :
  (forall a b c : pystr,
      a <> [] -> b <> [] -> c <> [] ->
      Gallery_init (VStr a) (VStr b) (VStr c)
      = Ok {| api_location := a; api_key := b; api_secret := c |})
  /\ (forall va vb vc : pyval,
         rejected va \/ rejected vb \/ rejected vc ->
         exists e, Gallery_init va vb vc = Raise e
                   /\ forall w, run (lift (Gallery_init va vb vc)) w
                                = (Raise e, w))
  /\ (forall g (v : pyval),
         rejected v ->
         (exists e, set_api_location g v = Raise e)
         /\ (exists e, set_api_key g v = Raise e)
         /\ (exists e, set_api_secret g v = Raise e)).
Proof.
  split; [|split].
  - intros [|? a] [|? b] [|? c] Ha Hb Hc; try congruence. reflexivity.
  - intros va vb vc Hbad.
    assert (exists e, Gallery_init va vb vc = Raise e) as [e He].
    { unfold Gallery_init.
      destruct (accepted_or_rejected va) as [(a & -> & Ha)|Hva].
      2:{ destruct (rejected_raises va) as ((e & ->) & _); eauto. }
      destruct (accepted_or_rejected vb) as [(b & -> & Hb)|Hvb].
      2:{ destruct (rejected_raises vb) as (_ & (e & ->) & _); auto.
          destruct (validate_api_location (VStr a)); eauto. }
      destruct (accepted_or_rejected vc) as [(c & -> & Hc)|Hvc].
      2:{ destruct (rejected_raises vc) as (_ & _ & (e & ->)); auto.
          destruct (validate_api_location (VStr a));
            destruct (validate_api_key (VStr b)); eauto. }
      destruct Hbad as [[H|H]|[[H|H]|[H|H]]];
        try discriminate H; congruence. }
    exists e. split; [exact He|]. intros w. unfold run, lift. by rewrite He.
  - intros g v Hv. unfold set_api_location, set_api_key, set_api_secret.
    destruct (rejected_raises v Hv) as ((e1 & ->) & (e2 & ->) & (e3 & ->)).
    repeat split; eexists; reflexivity.
Qed.

(** ** Ordering of the parameters *)

Lemma str_ltb_cons c d (s t : pystr) :
  str_ltb (c :: s) (d :: t) = true
  <-> (c < d)%N \/ (c = d /\ str_ltb s t = true).
Proof.
  clear json_loads upper_nonascii PyObj.
  simpl. rewrite orb_true_iff, andb_true_iff, N.ltb_lt, N.eqb_eq. tauto.
Qed.

Lemma str_ltb_trans s t u :
  str_ltb s t = true -> str_ltb t u = true -> str_ltb s u = true.
Proof.
  revert t u. induction s as [|c s IH]; intros [|d t] [|e u];
    try discriminate; try reflexivity.
  rewrite !str_ltb_cons. intros [H1|[-> H1]] [H2|[-> H2]].
  - left. lia.
  - left. exact H1.
  - left. exact H2.
  - right. split; [reflexivity|]. eapply IH; eassumption.
Qed.

Lemma str_ltb_trichotomy s t :
  str_ltb s t = true \/ s = t \/ str_ltb t s = true.
Proof.
  clear json_loads upper_nonascii PyObj.
  revert t. induction s as [|c s IH]; intros [|d t]; auto.
  rewrite !str_ltb_cons.
  destruct (N.lt_trichotomy c d) as [H|[->|H]]; [tauto| |tauto].
  destruct (IH t) as [H|[->|H]]; tauto.
Qed.

Lemma str_ltb_irrefl s : str_ltb s s = false.
Proof.
  induction s as [|c s IH]; [reflexivity|].
  simpl. rewrite N.ltb_irrefl, N.eqb_refl. exact IH.
Qed.

Lemma str_ltb_asym s t : str_ltb s t = true -> str_ltb t s = false.
Proof.
  intros H. destruct (str_ltb t s) eqn:E; [|reflexivity].
  pose proof (str_ltb_trans _ _ _ H E) as Hc.
  rewrite str_ltb_irrefl in Hc. discriminate.
Qed.

Lemma str_leb_antisym s t :
  str_leb s t = true -> str_leb t s = true -> s = t.
Proof.
  unfold str_leb. rewrite !negb_true_iff. intros H1 H2.
  destruct (str_ltb_trichotomy s t) as [H|[H|H]]; congruence.
Qed.

#[local] Instance item_le_trans : Transitive item_le.
Proof.
  intros a b c. unfold item_le, str_leb. rewrite !negb_true_iff.
  intros H1 H2. destruct (str_ltb c.1 a.1) eqn:E; [|reflexivity].
  destruct (str_ltb_trichotomy a.1 b.1) as [H|[H|H]].
  - pose proof (str_ltb_trans _ _ _ E H). congruence.
  - rewrite <- H in H2. congruence.
  - congruence.
Qed.

#[local] Instance item_le_total : Total item_le.
Proof.
  intros a b. unfold item_le, str_leb. rewrite !negb_true_iff.
  destruct (str_ltb b.1 a.1) eqn:E; [right|left; reflexivity].
  by apply str_ltb_asym.
Qed.

Lemma sorted_is_sorted (d : dict) : StronglySorted item_le (sorted d).
Proof. apply StronglySorted_merge_sort; apply _. Qed.

Lemma sorted_perm (d : dict) : sorted d ≡ₚ d.
Proof. apply merge_sort_Permutation. Qed.

(** Two key-sorted lists with the same items and no repeated key are the
    same list. *)
Lemma sorted_items_unique (l1 l2 : dict) :
  StronglySorted item_le l1 -> StronglySorted item_le l2 ->
  l1 ≡ₚ l2 -> NoDup l1.*1 -> l1 = l2.
Proof.
  intros S1. revert l2.
  induction S1 as [|x l1 S1 IH Hx]; intros l2 S2 HP Hnd.
  - symmetry. by apply Permutation_nil.
  - destruct S2 as [|y l2 S2 Hy].
    { symmetry in HP. by apply Permutation_nil in HP. }
    assert (x = y) as <-.
    { assert (x ∈ y :: l2) as Hin1 by (rewrite <- HP; left).
      assert (y ∈ x :: l1) as Hin2 by (rewrite HP; left).
      apply elem_of_cons in Hin1 as [?|Hin1]; [assumption|].
      apply elem_of_cons in Hin2 as [?|Hin2]; [by symmetry|].
      rewrite Forall_forall in Hx, Hy.
      pose proof (str_leb_antisym _ _ (Hx _ Hin2) (Hy _ Hin1)) as Hk.
      apply NoDup_cons in Hnd as [Hnotin _]. exfalso. apply Hnotin.
      simpl. rewrite Hk. apply list_elem_of_fmap. by exists y. }
    f_equal. apply IH; [assumption| |].
    + by apply Permutation_cons_inv in HP.
    + simpl in Hnd. by apply NoDup_cons in Hnd as [_ ?].
Qed.

Lemma sorted_order_invariant (d1 d2 : dict) :
  NoDup d1.*1 -> d1 ≡ₚ d2 -> sorted d1 = sorted d2.
Proof.
  intros Hnd HP. apply sorted_items_unique; try apply sorted_is_sorted.
  - by rewrite !sorted_perm.
  - by rewrite sorted_perm.
Qed.

(** C6. Two parameter dicts holding the same key-value pairs, in whatever
    insertion order, give the same signature for the same method, URL and
    secret: both are sorted by key, ascending, into one and the same list
    before they are encoded. *)
Theorem signature_order_invariant g1 g2 (http_method url : pystr)
    (w1 w2 : World PyObj) r1 r2 (d1 d2 : dict) :
  api_secret g1 = api_secret g2 ->
  heap w1 !! r1 = Some d1 ->
  heap w2 !! r2 = Some d2 ->
  NoDup d1.*1 ->
  d1 ≡ₚ d2 ->
  (run (generate_signature upper_nonascii g1 http_method url r1) w1).1
  = (run (generate_signature upper_nonascii g2 http_method url r2) w2).1
  /\ sorted d1 = sorted d2
  /\ StronglySorted item_le (sorted d1)
  /\ sorted d1 ≡ₚ d1.
Proof.
  intros Hs H1 H2 Hnd HP.
  pose proof (sorted_order_invariant d1 d2 Hnd HP) as Heq.
  split; [|split; [exact Heq|split; [apply sorted_is_sorted|apply sorted_perm]]].
  rewrite !generate_signature_run, H1, H2, Hs. simpl.
  unfold signature_of, base_string_of. by rewrite Heq.
Qed.

(** ** The nonce *)

Lemma with_cursor_same w : with_cursor (cursor w) w = w.
Proof. by destruct w. Qed.

Lemma choices_run n w :
  run (choices n alphabet) w
  = (Ok (map (fun i => [nth i alphabet 0%N]) (draws w n)),
     with_cursor (cursor w + n) w).
Proof.
  unfold draws. revert w. induction n as [|n IH]; intros w.
  - simpl. rewrite Nat.add_0_r, with_cursor_same. reflexivity.
  - cbn [choices]. unfold run in *.
    unfold mbind at 1. unfold M_bind.
    change (random_choice alphabet w)
      with (Ok [nth (tape w (cursor w) mod 62)%nat alphabet 0%N],
            with_cursor (S (cursor w)) w).
    cbv beta iota. unfold mbind at 1. unfold M_bind. rewrite IH.
    cbn [seq map]. rewrite Nat.add_0_r, <- seq_shift, (map_map S).
    unfold mret, M_ret. f_equal.
    + do 3 f_equal. apply map_ext. intros k. cbn [cursor with_cursor tape].
      by rewrite Nat.add_succ_comm.
    + destruct w. unfold with_cursor. cbn. f_equal. lia.
Qed.

Lemma join_singletons (l : list N) : join [] (map (fun c => [c]) l) = l.
Proof.
  induction l as [|c [|c' l] IH]; [reflexivity..|].
  cbn [map join] in *. by rewrite IH.
Qed.

Lemma generate_nonce_run (length : option Z) w :
  let n := Z.to_nat (default 5 length) in
  run (generate_nonce length) w
  = (Ok (map (fun i => nth i alphabet 0%N) (draws w n)),
     with_cursor (cursor w + n) w).
Proof.
  intros n. unfold generate_nonce, run.
  unfold mbind, M_bind.
  pose proof (choices_run n w) as H. unfold run, alphabet in H.
  fold n. rewrite H. unfold mret, M_ret. do 2 f_equal.
  rewrite <- (map_map (fun i => nth i alphabet 0%N) (fun c => [c])).
  apply join_singletons.
Qed.

Lemma alphabet_length : length alphabet = 62%nat.
Proof. reflexivity. Qed.

Lemma alphabet_NoDup : NoDup alphabet.
Proof. apply (bool_decide_unpack _). vm_compute. reflexivity. Qed.

Lemma alphabet_alnum c : c ∈ alphabet <-> alnum c = true.
Proof.
  split.
  - intros Hin.
    assert (Forall (fun c => alnum c = true) alphabet) as Hall.
    { apply (bool_decide_unpack _). vm_compute. reflexivity. }
    rewrite Forall_forall in Hall. by apply Hall.
  - intros Hc.
    assert (c < 123)%N as Hlt.
    { unfold alnum in Hc.
      rewrite !orb_true_iff, !andb_true_iff, !N.leb_le in Hc. lia. }
    assert (Forall (fun k => alnum (N.of_nat k) = true ->
                             N.of_nat k ∈ alphabet) (seq 0 123)) as Hall.
    { apply (bool_decide_unpack _). vm_compute. reflexivity. }
    rewrite Forall_forall in Hall.
    specialize (Hall (N.to_nat c)). rewrite N2Nat.id in Hall.
    apply Hall; [|exact Hc]. apply elem_of_seq. lia.
Qed.

Lemma draws_lt w n : Forall (fun i => (i < 62)%nat) (draws w n).
Proof.
  unfold draws. apply Forall_forall. intros i Hi.
  apply list_elem_of_fmap in Hi as (k & -> & _).
  apply Nat.mod_upper_bound. discriminate.
Qed.

Lemma draws_length w n : length (draws w n) = n.
Proof. unfold draws. by rewrite length_map, length_seq. Qed.

(** C9. For a length [n >= 0] (5 when the argument is left out) and every
    state of the random source, [generate_nonce] returns a string of exactly
    [n] characters of [[A-Za-z0-9]]. Position [k] holds the alphabet entry
    at the [k]-th draw below 62 of the random source; the alphabet has 62
    distinct entries, exactly the characters of [[A-Za-z0-9]], so every
    such character is the image of one and only one draw; and any sequence
    of draws below 62 is the reading of some random source. Draws that are
    uniform on 0..61 therefore give characters uniform on the alphabet. *)
Theorem nonce_shape (length : option Z) w :
  0 <= default 5 length ->
  let n := Z.to_nat (default 5 length) in
  exists s : pystr,
    run (generate_nonce length) w = (Ok s, with_cursor (cursor w + n) w)
    /\ Z.of_nat (List.length s) = default 5 length
    /\ Forall (fun c => alnum c = true) s
    /\ s = map (fun i => nth i alphabet 0%N) (draws w n)
    /\ Forall (fun i => (i < 62)%nat) (draws w n)
    /\ (forall c, alnum c = true ->
          exists i, (i < 62)%nat /\ nth i alphabet 0%N = c
            /\ forall j, (j < 62)%nat -> nth j alphabet 0%N = c -> j = i)
    /\ (forall ds : list nat,
          List.length ds = n -> Forall (fun i => (i < 62)%nat) ds ->
          exists w' : World PyObj, draws w' n = ds).
Proof.
  intros Hn n. eexists. split; [apply generate_nonce_run|].
  fold n. split; [|split; [|split; [reflexivity|split; [apply draws_lt|split]]]].
  - rewrite length_map, draws_length. unfold n. lia.
  - apply Forall_forall. intros c Hc.
    apply list_elem_of_fmap in Hc as (i & -> & Hi).
    apply alphabet_alnum.
    pose proof (draws_lt w n) as Hlt. rewrite Forall_forall in Hlt.
    apply list_elem_of_In, nth_In. rewrite alphabet_length. by apply Hlt.
  - intros c Hc. apply alphabet_alnum in Hc.
    apply list_elem_of_lookup in Hc as [i Hi].
    exists i. split; [|split].
    + apply lookup_lt_Some in Hi. by rewrite alphabet_length in Hi.
    + by apply nth_lookup_Some.
    + intros j Hj Hnth.
      assert (alphabet !! j = Some c) as Hj'.
      { rewrite <- Hnth.
        destruct (nth_lookup_or_length alphabet j 0%N) as [?|Hge];
          [assumption|]. rewrite alphabet_length in Hge. lia. }
      eapply NoDup_lookup; eauto using alphabet_NoDup.
  - intros ds Hlen Hds.
    exists {| heap := heap w; tape := fun k => nth k ds 0%nat; cursor := 0;
              clock := clock w; ticks := ticks w; sent := sent w;
              wire := wire w |}.
    unfold draws. cbn [tape cursor]. rewrite <- Hlen.
    clear Hlen. induction Hds as [|i ds Hi Hds IH]; [reflexivity|].
    cbn [List.length seq map nth Nat.add]. f_equal.
    + by apply Nat.mod_small.
    + rewrite <- seq_shift, map_map. exact IH.
Qed.

(** ** Encodings succeed on well-formed text and yield ASCII *)

Lemma utf8_encode_char_scalar c :
  scalar c = true -> is_Some (utf8_encode_char c).
Proof.
  unfold scalar, utf8_encode_char. intros [Hlt Hs]%andb_true_iff.
  apply negb_true_iff in Hs. rewrite Hs, Hlt.
  destruct (c <? 128)%N; [eauto|]. destruct (c <? 2048)%N; [eauto|].
  destruct (c <? 65536)%N; eauto.
Qed.

Lemma utf8_encode_wf s : well_formed s -> is_Some (utf8_encode s).
Proof.
  induction 1 as [|c s Hc _ [bs' IH]]; [by eexists|].
  destruct (utf8_encode_char_scalar c Hc) as [bs Hbs].
  simpl. rewrite Hbs, IH. by eexists.
Qed.

Lemma ascii_scalar c : (c < 128)%N -> scalar c = true.
Proof.
  intros Hc. unfold scalar, is_surrogate.
  apply andb_true_iff. split; [apply N.ltb_lt; lia|].
  apply negb_true_iff, andb_false_iff. left. apply N.leb_gt. lia.
Qed.

Lemma ascii_well_formed s : ascii_only s -> well_formed s.
Proof. intros H. eapply Forall_impl; [exact H|exact ascii_scalar]. Qed.

Lemma ascii_encode_Some s : ascii_only s <-> is_Some (ascii_encode s).
Proof.
  induction s as [|c s IH]; simpl.
  - split; [by eexists|constructor].
  - unfold ascii_only in *. rewrite Forall_cons.
    destruct (N.ltb_spec c 128) as [Hc|Hc].
    + destruct (ascii_encode s).
      * split; [by eexists|]. intros _. split; [exact Hc|].
        apply IH. by eexists.
      * split; [|by intros [? ?]]. intros [_ H]. by apply IH.
    + split; [lia|]. by intros [? ?].
Qed.

Lemma ascii_only_app s t : ascii_only (s ++ t) <-> ascii_only s /\ ascii_only t.
Proof. apply Forall_app. Qed.

Lemma str_ascii_only (x : string) :
  forallb (fun c => c <? 128)%N (str x) = true -> ascii_only (str x).
Proof.
  intros H. apply Forall_forall. intros c Hc.
  rewrite forallb_forall in H. apply N.ltb_lt, H. by apply list_elem_of_In.
Qed.

Lemma quoter_ascii (safe : list N) x :
  ascii_only safe -> ascii_only (quoter safe x).
Proof.
  intros Hsafe. unfold quoter.
  destruct (mem (Byte.to_N x) (always_safe ++ safe)) eqn:E.
  - constructor; [|constructor]. unfold mem in E.
    apply existsb_exists in E as (c & Hin & ->%N.eqb_eq).
    apply in_app_or in Hin as [Hin|Hin].
    + assert (ascii_only always_safe) as Hall by (by apply str_ascii_only).
      unfold ascii_only in Hall. rewrite Forall_forall in Hall.
      by apply Hall, list_elem_of_In.
    + unfold ascii_only in Hsafe. rewrite Forall_forall in Hsafe.
      by apply Hsafe, list_elem_of_In.
  - assert (forall i, (nth i hex_upper 0 < 128)%N) as Hhex.
    { intros i. destruct (nth_in_or_default i hex_upper 0%N) as [Hin| ->];
        [|lia].
      assert (ascii_only hex_upper) as Hall by (by apply str_ascii_only).
      unfold ascii_only in Hall. rewrite Forall_forall in Hall.
      by apply Hall, list_elem_of_In. }
    unfold ascii_only. rewrite !Forall_cons.
    repeat split; [apply Hhex|apply Hhex|constructor].
Qed.

Lemma quote_from_bytes_ascii bs (safe : pystr) :
  ascii_only (quote_from_bytes bs safe).
Proof.
  unfold quote_from_bytes.
  assert (ascii_only (List.filter (fun c => c <? 128)%N safe)) as Hsafe.
  { apply Forall_forall. intros c Hc. apply list_elem_of_In in Hc.
    apply filter_In in Hc as [_ Hc]. by apply N.ltb_lt. }
  induction bs as [|x bs IH]; [constructor|].
  simpl. apply ascii_only_app. split; [by apply quoter_ascii|exact IH].
Qed.

Lemma quote_ok x (safe : pystr) :
  quotable_well_formed x ->
  exists q, quote x safe = Ok q /\ ascii_only q.
Proof.
  destruct x as [s|bs]; simpl; intros Hx.
  - destruct s as [|c s]; [exists []; split; [reflexivity|constructor]|].
    unfold encode_utf8.
    destruct (utf8_encode_wf _ Hx) as [bs ->]. simpl.
    eexists. split; [reflexivity|apply quote_from_bytes_ascii].
  - eexists. split; [reflexivity|apply quote_from_bytes_ascii].
Qed.

Lemma quote_raises x (safe : pystr) e :
  quote x safe = Raise e -> e = UnicodeEncodeError "utf-8".
Proof.
  destruct x as [[|c s]|bs]; simpl; try discriminate.
  unfold encode_utf8. destruct (utf8_encode (c :: s)); simpl; congruence.
Qed.

Lemma replace_space_plus_ascii s :
  ascii_only s -> ascii_only (replace_space_plus s).
Proof.
  unfold replace_space_plus, ascii_only. rewrite Forall_map.
  intros H. eapply Forall_impl; [exact H|].
  intros c Hc. unfold compose. cbv beta in Hc. destruct (c =? 32)%N; lia.
Qed.

Lemma quote_plus_ok x (safe : pystr) :
  quotable_well_formed x ->
  exists q, quote_plus x safe = Ok q /\ ascii_only q.
Proof.
  intros Hx. unfold quote_plus. destruct (negb (has_space x)).
  - by apply quote_ok.
  - destruct (quote_ok x (safe ++ str " ") Hx) as (q & -> & Hq).
    eexists. split; [reflexivity|]. by apply replace_space_plus_ascii.
Qed.

Lemma quote_plus_raises x (safe : pystr) e :
  quote_plus x safe = Raise e -> e = UnicodeEncodeError "utf-8".
Proof.
  unfold quote_plus. destruct (negb (has_space x)).
  - apply quote_raises.
  - destruct (quote x (safe ++ str " ")) eqn:E; simpl; [discriminate|].
    intros [= <-]. by apply quote_raises in E.
Qed.

Lemma urlencode_item_ok kv :
  item_well_formed kv ->
  exists q, urlencode_item kv = Ok q /\ ascii_only q.
Proof.
  destruct kv as [k v]. intros [Hk Hv]. unfold urlencode_item.
  destruct (quote_plus_ok (inl k) [] Hk) as (k' & -> & Hk').
  destruct (quote_plus_ok (quotable v) [] Hv) as (v' & -> & Hv').
  eexists. split; [reflexivity|].
  apply ascii_only_app. split; [exact Hk'|].
  apply ascii_only_app. split; [by apply str_ascii_only|exact Hv'].
Qed.

Lemma urlencode_item_raises kv e :
  urlencode_item kv = Raise e -> e = UnicodeEncodeError "utf-8".
Proof.
  destruct kv as [k v]. unfold urlencode_item.
  destruct (quote_plus (inl k) []) eqn:Ek; simpl.
  - destruct (quote_plus (quotable v) []) eqn:Ev; simpl; [discriminate|].
    intros [= <-]. by apply quote_plus_raises in Ev.
  - intros [= <-]. by apply quote_plus_raises in Ek.
Qed.

Lemma join_ascii (sep : pystr) (l : list pystr) :
  ascii_only sep -> Forall ascii_only l -> ascii_only (join sep l).
Proof.
  intros Hsep. induction 1 as [|p l Hp Hl IH]; [constructor|].
  destruct l as [|p' l]; [exact Hp|].
  change (ascii_only (p ++ sep ++ join sep (p' :: l))).
  apply ascii_only_app. split; [exact Hp|].
  apply ascii_only_app. split; [exact Hsep|exact IH].
Qed.

Lemma urlencode_ok (query : dict) :
  Forall item_well_formed query ->
  exists q, urlencode query = Ok q /\ ascii_only q.
Proof.
  intros Hq. unfold urlencode.
  assert (exists l, mapM (B:=list N) urlencode_item query = Ok l
                    /\ Forall ascii_only l)
    as (l & -> & Hl).
  { induction Hq as [|kv query Hkv _ (l & IH & Hl)].
    - exists []. split; [reflexivity|constructor].
    - destruct (urlencode_item_ok kv Hkv) as (q & Hq & Hqa).
      exists (q :: l). split; [|by constructor].
      cbn [mapM]. rewrite Hq. simpl. rewrite IH. reflexivity. }
  eexists. split; [reflexivity|].
  apply join_ascii; [by apply str_ascii_only|exact Hl].
Qed.

Lemma urlencode_raises (query : dict) e :
  urlencode query = Raise e -> e = UnicodeEncodeError "utf-8".
Proof.
  unfold urlencode.
  assert (forall e, mapM (B:=list N) urlencode_item query = Raise e ->
                    e = UnicodeEncodeError "utf-8") as Hm.
  { induction query as [|kv query IH]; intros e'; [cbv; discriminate|].
    cbn [mapM]. destruct (urlencode_item kv) eqn:Ekv; simpl.
    - destruct (mapM _ query); simpl; [discriminate|].
      intros [= <-]. by apply IH.
    - intros [= <-]. by apply urlencode_item_raises in Ekv. }
  destruct (mapM _ query); simpl; [discriminate|].
  intros [= <-]. by apply Hm.
Qed.

Lemma str_upper_ascii s : ascii_only s -> ascii_only (str_upper upper_nonascii s).
Proof.
  induction 1 as [|c s Hc _ IH]; [constructor|].
  change (ascii_only (upper_char upper_nonascii c
                      ++ str_upper upper_nonascii s)).
  apply ascii_only_app. split; [|exact IH].
  unfold upper_char. apply N.ltb_lt in Hc as Hc'. rewrite Hc'.
  constructor; [|constructor].
  destruct ((97 <=? c) && (c <=? 122))%N; lia.
Qed.

Lemma sorted_well_formed (d : dict) :
  Forall item_well_formed d -> Forall item_well_formed (sorted d).
Proof.
  rewrite !Forall_forall. intros H kv Hkv. apply H.
  by rewrite sorted_perm in Hkv.
Qed.

Lemma base_string_of_ok (http_method url : pystr) (d : dict) :
  ascii_only http_method -> well_formed url -> Forall item_well_formed d ->
  exists b, base_string_of upper_nonascii http_method url d = Ok b
            /\ ascii_only b.
Proof.
  intros Hm Hu Hd. unfold base_string_of.
  destruct (urlencode_ok (sorted d) (sorted_well_formed d Hd))
    as (np & -> & Hnp).
  destruct (quote_ok (inl url) (str "~") Hu) as (qu & -> & Hqu).
  rstep.
  destruct (quote_ok (inl np) (str "~") (ascii_well_formed np Hnp))
    as (qp & -> & Hqp).
  eexists. split; [reflexivity|].
  apply join_ascii; [by apply str_ascii_only|].
  repeat constructor; auto using str_upper_ascii.
Qed.

Lemma base_string_of_raises (http_method url : pystr) (d : dict) e :
  base_string_of upper_nonascii http_method url d = Raise e ->
  e = UnicodeEncodeError "utf-8".
Proof.
  unfold base_string_of.
  destruct (urlencode (sorted d)) as [np|e1] eqn:E1; rstep;
    [|intros [= <-]; by apply urlencode_raises in E1].
  destruct (quote (inl url) (str "~")) as [qu|e2] eqn:E2; rstep;
    [|intros [= <-]; by apply quote_raises in E2].
  destruct (quote (inl np) (str "~")) as [qp|e3] eqn:E3; rstep;
    [discriminate|intros [= <-]; by apply quote_raises in E3].
Qed.

Lemma encode_ascii_ok s :
  ascii_only s -> exists bs, encode_ascii s = Ok bs.
Proof.
  intros [bs Hbs]%ascii_encode_Some. exists bs.
  unfold encode_ascii. by rewrite Hbs.
Qed.

Lemma encode_ascii_raises s :
  ~ ascii_only s -> encode_ascii s = Raise (UnicodeEncodeError "ascii").
Proof.
  intros Hs. unfold encode_ascii.
  destruct (ascii_encode s) eqn:E; [|reflexivity].
  exfalso. apply Hs, ascii_encode_Some. by eexists.
Qed.

Lemma encode_ascii_error s e :
  encode_ascii s = Raise e -> e = UnicodeEncodeError "ascii".
Proof.
  unfold encode_ascii. destruct (ascii_encode s); simpl; congruence.
Qed.

Lemma signing_key_ascii (secret : pystr) :
  ascii_only (join (str "&") [secret; []]) <-> ascii_only secret.
Proof.
  clear json_loads PyObj.
  cbn [join]. rewrite !ascii_only_app. split; [tauto|].
  intros H. split; [exact H|]. split; [by apply str_ascii_only|constructor].
Qed.

Lemma signature_of_ok (secret http_method url : pystr) (d : dict) :
  ascii_only secret -> ascii_only http_method -> well_formed url ->
  Forall item_well_formed d ->
  exists key base,
    base_string_of upper_nonascii http_method url d = Ok base
    /\ encode_ascii (join (str "&") [secret; []]) = Ok key
    /\ signature_of upper_nonascii secret http_method url d
       = Ok (b64encode (hmac_sha1 key (default [] (ascii_encode base)))).
Proof.
  intros Hs Hm Hu Hd.
  destruct (base_string_of_ok _ _ _ Hm Hu Hd) as (base & Hbase & Hb).
  destruct (encode_ascii_ok _ (proj2 (signing_key_ascii secret) Hs))
    as [key Hkey].
  exists key, base. split; [exact Hbase|]. split; [exact Hkey|].
  unfold signature_of. rewrite Hbase. rstep. rewrite Hkey. rstep.
  apply ascii_encode_Some in Hb as [bb Hbb].
  unfold encode_ascii. rewrite Hbb. reflexivity.
Qed.

Lemma signature_of_raises (secret http_method url : pystr) (d : dict) e :
  signature_of upper_nonascii secret http_method url d = Raise e ->
  exists codec, e = UnicodeEncodeError codec.
Proof.
  unfold signature_of.
  destruct (base_string_of _ _ _ _) as [base|e1] eqn:E1; rstep;
    [|intros [= <-]; apply base_string_of_raises in E1; eauto].
  destruct (encode_ascii (join _ _)) as [key|e2] eqn:E2; rstep;
    [|intros [= <-]; apply encode_ascii_error in E2; eauto].
  destruct (encode_ascii base) as [bb|e3] eqn:E3; rstep;
    [discriminate|intros [= <-]; apply encode_ascii_error in E3; eauto].
Qed.

Lemma signature_of_bad_secret (secret http_method url : pystr) (d : dict) :
  ~ ascii_only secret ->
  exists codec, signature_of upper_nonascii secret http_method url d
                = Raise (UnicodeEncodeError codec).
Proof.
  intros Hs. unfold signature_of.
  destruct (base_string_of _ _ _ _) as [base|e1] eqn:E1; rstep.
  - rewrite (encode_ascii_raises (join (str "&") [secret; []]));
      [eauto|by rewrite signing_key_ascii].
  - apply base_string_of_raises in E1 as ->. eauto.
Qed.

(** C5 (as amended). A secret holding a character outside ASCII makes
    [generate_signature] raise a [UnicodeEncodeError] and return no
    signature; whenever [generate_signature] raises on the items of a dict,
    the exception is a [UnicodeEncodeError]. Characters outside ASCII in the
    URL or in the keys and values of the parameters do not raise: they are
    percent-encoded, so with an ASCII secret and method and with URL and
    parameters free of lone surrogates (all-ASCII inputs in particular) the
    signature is returned. Signing never changes the world. *)
Theorem signing_encoding_errors g (http_method url : pystr) r w (d : dict) :
  heap w !! r = Some d ->
  (Exists (fun c => (128 <= c)%N) (api_secret g) ->
   exists codec,
     run (generate_signature upper_nonascii g http_method url r) w
     = (Raise (UnicodeEncodeError codec), w))
  /\ (forall e w',
        run (generate_signature upper_nonascii g http_method url r) w
        = (Raise e, w') ->
        w' = w /\ exists codec, e = UnicodeEncodeError codec)
  /\ (ascii_only (api_secret g) -> ascii_only http_method ->
      well_formed url -> Forall item_well_formed d ->
      exists sig,
        run (generate_signature upper_nonascii g http_method url r) w
        = (Ok sig, w)).
Proof.
  intros Hr. rewrite generate_signature_run, Hr. simpl.
  split; [|split].
  - intros Hex.
    destruct (signature_of_bad_secret (api_secret g) http_method url d)
      as [codec ->]; [|eauto].
    intros Hall. apply Exists_exists in Hex as (c & Hc & Hge).
    unfold ascii_only in Hall. rewrite Forall_forall in Hall.
    specialize (Hall c Hc). lia.
  - intros e w' [= He <-]. split; [reflexivity|].
    by apply signature_of_raises in He.
  - intros Hs Hm Hu Hd.
    destruct (signature_of_ok _ _ _ _ Hs Hm Hu Hd) as (? & ? & _ & _ & ->).
    eauto.
Qed.

(** ** The two percent-encodings *)

Lemma quoter_tilde x :
  quoter (List.filter (fun c => c <? 128)%N []) x
  = quoter (List.filter (fun c => c <? 128)%N (str "~")) x.
Proof.
  change (List.filter (fun c => c <? 128)%N []) with (@nil N).
  change (List.filter (fun c => c <? 128)%N (str "~")) with [126%N].
  unfold quoter, mem. rewrite !existsb_app. cbn [existsb].
  destruct (N.eqb_spec (to_N x) 126) as [->|_];
    [reflexivity|by rewrite !orb_false_r].
Qed.

Lemma quote_from_bytes_tilde bs :
  quote_from_bytes bs [] = quote_from_bytes bs (str "~").
Proof.
  unfold quote_from_bytes. induction bs as [|x bs IH]; [reflexivity|].
  cbn [flat_map]. by rewrite IH, quoter_tilde.
Qed.

Lemma quote_plus_no_space (x : pystr) :
  mem 32%N x = false -> quote_plus (inl x) [] = quote (inl x) (str "~").
Proof.
  intros Hx. unfold quote_plus. cbn [has_space]. rewrite Hx. cbn [negb].
  unfold quote. destruct x as [|c x]; [reflexivity|].
  destruct (encode_utf8 (c :: x)); simpl; [|reflexivity].
  by rewrite quote_from_bytes_tilde.
Qed.

Lemma mapM_urlencode_items (q : dict) :
  Forall item_well_formed q ->
  exists l, mapM (B:=list N) urlencode_item q = Ok l
    /\ Forall2 (fun kv e =>
          exists k' v',
            quote_plus (inl kv.1) [] = Ok k'
            /\ quote_plus (quotable kv.2) [] = Ok v'
            /\ e = k' ++ str "=" ++ v') q l.
Proof.
  induction 1 as [|[k v] q [Hk Hv] Hq (l & IH & HF)].
  - exists []. split; [reflexivity|constructor].
  - destruct (quote_plus_ok (inl k) [] Hk) as (k' & Ek & _).
    destruct (quote_plus_ok (quotable v) [] Hv) as (v' & Ev & _).
    exists ((k' ++ str "=" ++ v') :: l). split.
    + cbn [mapM urlencode_item]. rewrite Ek. simpl. rewrite Ev. simpl.
      rewrite IH. reflexivity.
    + constructor; [|exact HF]. exists k', v'. auto.
Qed.

(** The two encodings side by side. The sorted parameters are encoded into
    one query string "key=value&key=value...", each key and value through
    [quote_plus]; [quote] with safe "~" is what the URL goes through. Both
    leave "~" as it is and both give the same result on any text without a
    space. *)
Theorem parameter_and_url_encoding (d : dict) :
  Forall item_well_formed d ->
  (exists (l : list pystr) (q : pystr),
      urlencode (sorted d) = Ok q
      /\ q = join (str "&") l
      /\ Forall2 (fun kv e =>
           exists k' v',
             quote_plus (inl kv.1) [] = Ok k'
             /\ quote_plus (quotable kv.2) [] = Ok v'
             /\ e = k' ++ str "=" ++ v') (sorted d) l)
  /\ (forall x : pystr,
        mem 32%N x = false ->
        quote_plus (inl x) [] = quote (inl x) (str "~"))
  /\ quote_plus (inl (str "~")) [] = Ok (str "~")
  /\ quote (inl (str "~")) (str "~") = Ok (str "~")
  /\ quote_plus (inl (str " ")) [] = Ok (str "+")
  /\ quote (inl (str " ")) (str "~") = Ok (str "%20").
Proof.
  intros Hd. split; [|split; [exact quote_plus_no_space|]];
    [|repeat split; vm_compute; reflexivity].
  apply sorted_well_formed in Hd.
  destruct (mapM_urlencode_items _ Hd) as (l & Hl & HF).
  exists l, (join (str "&") l). split; [|split; [reflexivity|exact HF]].
  unfold urlencode. rewrite Hl. reflexivity.
Qed.

(** ** Running the endpoint operations *)

Lemma run_bind {A B} (m : M PyObj A) (f : A -> M PyObj B) w :
  run (m ≫= f) w
  = match run m w with
    | (Ok a, w') => run (f a) w'
    | (Raise e, w') => (Raise e, w')
    end.
Proof. reflexivity. Qed.

Lemma str_of_int_ascii z : ascii_only (str_of_int z).
Proof.
  unfold str_of_int.
  assert (forall u, ascii_only (str (NilEmpty.string_of_uint u))) as Hu.
  { induction u; try (constructor; [simpl; lia|exact IHu]). constructor. }
  assert (forall u, ascii_only (str (NilZero.string_of_uint u))) as Hz.
  { intros u. destruct u; try apply Hu.
    constructor; [simpl; lia|constructor]. }
  destruct (Z.to_int z) as [u|u]; cbn [NilZero.string_of_int]; [apply Hz|].
  constructor; [simpl; lia|apply Hz].
Qed.

Lemma nonce_ascii w n :
  ascii_only (map (fun i => nth i alphabet 0%N) (draws w n)).
Proof.
  unfold ascii_only. rewrite Forall_map. 
  eapply Forall_impl; [apply (draws_lt w n)|].
  intros i Hi. unfold compose.
  assert (nth i alphabet 0%N ∈ alphabet) as Hin.
  { apply list_elem_of_In, nth_In. by rewrite alphabet_length. }
  apply alphabet_alnum in Hin. unfold alnum in Hin.
  rewrite !orb_true_iff, !andb_true_iff, !N.leb_le in Hin. lia.
Qed.

Lemma oauth_dict_well_formed g w :
  well_formed (api_key g) -> Forall item_well_formed (oauth_dict g w).
Proof.
  intros Hk. unfold oauth_dict, item_well_formed.
  repeat apply Forall_cons_2; try apply Forall_nil_2; cbn [fst snd quotable];
    (split; [by apply ascii_well_formed, str_ascii_only|]).
  - exact Hk.
  - apply ascii_well_formed, nonce_ascii.
  - by apply ascii_well_formed, str_ascii_only.
  - apply ascii_well_formed, str_of_int_ascii.
  - by apply ascii_well_formed, str_ascii_only.
Qed.

Lemma well_formed_app s t : well_formed (s ++ t) <-> well_formed s /\ well_formed t.
Proof. apply Forall_app. Qed.

Lemma str_well_formed (x : string) :
  forallb (fun c => c <? 128)%N (str x) = true -> well_formed (str x).
Proof. intros H. by apply ascii_well_formed, str_ascii_only. Qed.

Lemma op_url_well_formed g (op : operation PyObj) :
  well_formed (api_location g) -> op_well_formed op ->
  well_formed (op_url g op).
Proof.
  clear json_loads.
  intros Hl Hop. destruct op; cbn [op_url op_well_formed] in *;
    repeat (apply well_formed_app; split);
    try assumption; try tauto; by apply str_well_formed.
Qed.

Lemma build_oauth_params_run g w :
  run (build_oauth_params g) w
  = (Ok (length (heap w)), with_params (oauth_dict g w) w).
Proof.
  unfold build_oauth_params. rewrite run_bind.
  pose proof (generate_nonce_run (Some 5) w) as Hn. cbv zeta in Hn.
  change (Z.to_nat (default 5 (Some 5))) with 5%nat in Hn. rewrite Hn.
  reflexivity.
Qed.

Lemma dict_set_fresh (k : pystr) (v : pyval) (d : dict) :
  k ∉ d.*1 -> dict_set k v d = d ++ [(k, v)].
Proof.
  induction d as [|[k' v'] d IH]; [reflexivity|].
  cbn [fmap list_fmap fst]. rewrite not_elem_of_cons. intros [Hne Hd].
  cbn [dict_set app]. destruct (decide (k' = k)); [congruence|].
  by rewrite IH.
Qed.

Lemma dict_get_fresh {V} (k : pystr) (v : V) (d : list (pystr * V)) :
  k ∉ d.*1 -> dict_get k (d ++ [(k, v)]) = Some v.
Proof.
  induction d as [|[k' v'] d IH].
  - intros _. cbn [app dict_get]. by destruct (decide (k = k)).
  - cbn [fmap list_fmap fst]. rewrite not_elem_of_cons. intros [Hne Hd].
    cbn [app dict_get]. destruct (decide (k' = k)); [congruence|].
    by apply IH.
Qed.

Lemma oauth_signature_fresh g w :
  str "oauth_signature" ∉ (oauth_dict g w).*1.
Proof.
  unfold oauth_dict. cbn [fmap list_fmap fst].
  apply (bool_decide_unpack _). vm_compute. reflexivity.
Qed.

Lemma oauth_dict_signed g w (sig : bytes) :
  dict_set (str "oauth_signature") (VBytes sig) (oauth_dict g w)
  = signed_dict g w sig.
Proof. apply dict_set_fresh, oauth_signature_fresh. Qed.

Lemma dict_update_run r (k : pystr) (v : pyval) w (d : dict) :
  heap w !! r = Some d ->
  run (dict_update r k v) w
  = (Ok tt, with_heap (<[r := dict_set k v d]> (heap w)) w).
Proof. intros H. unfold run, dict_update. by rewrite H. Qed.

Lemma with_params_heap (d : dict) w : heap (with_params d w) = heap w ++ [d].
Proof. reflexivity. Qed.

Lemma with_params_signed g w (sig : bytes) :
  with_heap (<[length (heap w) := signed_dict g w sig]>
               (heap (with_params (oauth_dict g w) w)))
    (with_params (oauth_dict g w) w)
  = with_params (signed_dict g w sig) w.
Proof.
  rewrite with_params_heap.
  rewrite insert_app_r_alt by reflexivity. rewrite Nat.sub_diag.
  reflexivity.
Qed.

(** The three lines every operation starts with: build the parameters,
    sign, store the signature. *)
Lemma signing_prelude_ok {A} g (http_method url : pystr)
    (k : ref -> M PyObj A) w (sig : bytes) :
  signature_of upper_nonascii (api_secret g) http_method url (oauth_dict g w)
  = Ok sig ->
  run (params ← build_oauth_params g;
       signature ← generate_signature upper_nonascii g http_method url params;
       dict_update params (str "oauth_signature") (VBytes signature);;
       k params) w
  = run (k (length (heap w))) (with_params (signed_dict g w sig) w).
Proof.
  intros Hsig.
  rewrite run_bind, build_oauth_params_run. cbv beta iota.
  rewrite run_bind, generate_signature_run, with_params_heap.
  rewrite list_lookup_middle by reflexivity.
  cbv beta iota delta [or_raise]. rstep. rewrite Hsig.
  rewrite run_bind.
  rewrite (dict_update_run _ _ _ _ (oauth_dict g w))
    by (rewrite with_params_heap; by apply list_lookup_middle).
  rewrite oauth_dict_signed, with_params_signed. reflexivity.
Qed.

Lemma signing_prelude_raise {A} g (http_method url : pystr)
    (k : ref -> M PyObj A) w e :
  signature_of upper_nonascii (api_secret g) http_method url (oauth_dict g w)
  = Raise e ->
  run (params ← build_oauth_params g;
       signature ← generate_signature upper_nonascii g http_method url params;
       dict_update params (str "oauth_signature") (VBytes signature);;
       k params) w
  = (Raise e, with_params (oauth_dict g w) w).
Proof.
  intros Hsig.
  rewrite run_bind, build_oauth_params_run. cbv beta iota.
  rewrite run_bind, generate_signature_run, with_params_heap.
  rewrite list_lookup_middle by reflexivity.
  cbv beta iota delta [or_raise]. rstep. rewrite Hsig. reflexivity.
Qed.

Lemma run_lift {A} (x : result A) w : run (lift x) w = (x, w).
Proof. reflexivity. Qed.

Lemma requests_call_run v (url : pystr) r json headers w (d : dict) :
  heap w !! r = Some d ->
  run (requests_call v url r json headers) w
  = (or_raise ConnectionError (wire w (length (sent w))),
     with_sent (sent w ++ [{| req_verb := v; req_url := url;
                              req_params := d; req_json := json;
                              req_headers := headers |}]) w).
Proof. intros H. unfold run, requests_call. by rewrite H. Qed.

Lemma signed_params_lookup g w (sig : bytes) :
  heap (with_params (signed_dict g w sig) w) !! length (heap w)
  = Some (signed_dict g w sig).
Proof. rewrite with_params_heap. by apply list_lookup_middle. Qed.

(** After the prelude: one request, then the decoding of its answer. *)
Lemma respond_json v (url : pystr) json headers g w (sig : bytes) :
  tagged Parsed
    (run (output ← requests_call v url (length (heap w)) json headers;
          text ← lift (decode_utf8 (content output));
          output_content ← loads json_loads text;
          mret (output, output_content))
       (with_params (signed_dict g w sig) w))
  = (resp ← or_raise ConnectionError (wire w (length (sent w)));
     text ← decode_utf8 (content resp);
     j ← or_raise JSONDecodeError (json_loads text);
     Ok (resp, Parsed j),
     with_sent (sent w ++ [{| req_verb := v; req_url := url;
                              req_params := signed_dict g w sig;
                              req_json := json; req_headers := headers |}])
       (with_params (signed_dict g w sig) w)).
Proof.
  rewrite run_bind,
    (requests_call_run _ _ _ _ _ _ _ (signed_params_lookup g w sig)).
  change (wire (with_params (signed_dict g w sig) w)) with (wire w).
  change (sent (with_params (signed_dict g w sig) w)) with (sent w).
  destruct (wire w (length (sent w))) as [resp|]; [|reflexivity].
  cbv beta iota delta [or_raise]. rstep. rewrite run_bind, run_lift.
  destruct (decode_utf8 (content resp)) as [text|]; [|reflexivity].
  rstep. cbv beta iota. unfold loads. rewrite run_bind, run_lift.
  destruct (json_loads text); reflexivity.
Qed.

Lemma respond_text v (url : pystr) json headers g w (sig : bytes) :
  tagged (B := body PyObj) Text
    (run (output ← requests_call v url (length (heap w)) json headers;
          output_content ← lift (decode_utf8 (content output));
          mret (output, output_content))
       (with_params (signed_dict g w sig) w))
  = (resp ← or_raise ConnectionError (wire w (length (sent w)));
     text ← decode_utf8 (content resp);
     Ok (resp, Text text),
     with_sent (sent w ++ [{| req_verb := v; req_url := url;
                              req_params := signed_dict g w sig;
                              req_json := json; req_headers := headers |}])
       (with_params (signed_dict g w sig) w)).
Proof.
  rewrite run_bind,
    (requests_call_run _ _ _ _ _ _ _ (signed_params_lookup g w sig)).
  change (wire (with_params (signed_dict g w sig) w)) with (wire w).
  change (sent (with_params (signed_dict g w sig) w)) with (sent w).
  destruct (wire w (length (sent w))) as [resp|]; [|reflexivity].
  cbv beta iota delta [or_raise]. rstep. rewrite run_bind, run_lift.
  destruct (decode_utf8 (content resp)) as [text|]; reflexivity.
Qed.

(** Every operation, once the signature is computed: it issues exactly the
    request [op_request] and returns what [op_body] makes of the answer. *)
Lemma call_run (op : operation PyObj) g w (sig : bytes) :
  signature_of upper_nonascii (api_secret g) (op_method op) (op_url g op)
    (oauth_dict g w) = Ok sig ->
  call json_loads upper_nonascii op g w
  = (resp ← or_raise ConnectionError (wire w (length (sent w)));
     op_body json_loads op resp,
     with_sent (sent w ++ [op_request g op w sig])
       (with_params (signed_dict g w sig) w)).
Proof.
  intros Hsig. unfold op_request, op_headers.
  destruct op as [|a|a kw|a|j|j o| |a];
    cbn [op_method op_url op_verb op_json] in *; unfold call;
    (unfold subscription, questions, execute_workflow, get_jobs,
       get_job_status, get_job_output, get_workflows, get_app; cbv zeta);
    rewrite (signing_prelude_ok _ _ _ _ _ _ Hsig).
  3:{ destruct (dict_get (str "payload") kw) as [payload|].
      - apply (respond_json POST).
      - apply (respond_json POST). }
  all: try apply (respond_json GET).
  apply (respond_text GET).
Qed.

Lemma op_method_ascii (op : operation PyObj) : ascii_only (op_method op).
Proof. destruct op; by apply str_ascii_only. Qed.

(** With an ASCII secret and identifiers free of lone surrogates, the
    signature of every operation is computed. *)
Lemma op_signature_ok (op : operation PyObj) g w :
  ascii_only (api_secret g) -> well_formed (api_key g) ->
  well_formed (api_location g) -> op_well_formed op ->
  exists key base,
    signature_of upper_nonascii (api_secret g) (op_method op) (op_url g op)
      (oauth_dict g w)
    = Ok (b64encode (hmac_sha1 key base)).
Proof.
  intros Hs Hk Hl Hop.
  destruct (signature_of_ok (api_secret g) (op_method op) (op_url g op)
              (oauth_dict g w) Hs (op_method_ascii op)
              (op_url_well_formed g op Hl Hop)
              (oauth_dict_well_formed g w Hk))
    as (key & base & _ & _ & H).
  eauto.
Qed.

Lemma tagged_snd {A B} (tag : A -> B)
    (out : result (Response * A) * World PyObj) :
  (tagged tag out).2 = out.2.
Proof. reflexivity. Qed.

(** C7. [execute_workflow] issues one POST to the jobs URL of the app. Its
    query parameters are the five OAuth parameters followed by
    [oauth_signature], the same whether or not a payload is given. Without
    a payload the call carries no JSON body and no headers; with
    [payload=p] it carries [json=p] and the header
    Content-Type: application/json. *)
Theorem execute_workflow_request g (app_id : pystr)
    (kwargs : list (pystr * PyObj)) w :
  ascii_only (api_secret g) -> well_formed (api_key g) ->
  well_formed (api_location g) -> well_formed app_id ->
  let url := api_location g ++ str "/v1/workflows/" ++ app_id
             ++ str "/jobs/" in
  let w' := (run (execute_workflow json_loads upper_nonascii g app_id
                    kwargs) w).2 in
  exists sig,
    signature_of upper_nonascii (api_secret g) (str "POST") url
      (oauth_dict g w) = Ok sig
    /\ (dict_get (str "payload") kwargs = None ->
        sent w' = sent w ++ [
          {| req_verb := POST; req_url := url;
             req_params := oauth_dict g w
                           ++ [(str "oauth_signature", VBytes sig)];
             req_json := None; req_headers := None |}])
    /\ (forall p, dict_get (str "payload") kwargs = Some p ->
        sent w' = sent w ++ [
          {| req_verb := POST; req_url := url;
             req_params := oauth_dict g w
                           ++ [(str "oauth_signature", VBytes sig)];
             req_json := Some p;
             req_headers :=
               Some [(str "Content-Type", str "application/json")] |}]).
Proof.
  intros Hs Hk Hl Ha url w'.
  destruct (op_signature_ok (ExecuteWorkflow app_id kwargs) g w Hs Hk Hl Ha)
    as (key & base & Hsig).
  exists (b64encode (hmac_sha1 key base)). split; [exact Hsig|].
  pose proof (call_run (ExecuteWorkflow app_id kwargs) g w _ Hsig) as Hc.
  apply (f_equal snd) in Hc. cbn [call] in Hc. rewrite tagged_snd in Hc.
  subst w'. cbn [snd] in Hc. unfold url.
  change (run (execute_workflow json_loads upper_nonascii g app_id kwargs) w).2
    with (snd (run (execute_workflow json_loads upper_nonascii g app_id
                      kwargs) w)).
  rewrite Hc. cbn [sent with_sent].
  unfold op_request, op_headers, signed_dict. cbn [op_json op_verb op_url].
  split.
  - intros ->. reflexivity.
  - intros p ->. reflexivity.
Qed.

(** C8. Whatever the identifiers and the response, [get_job_output] returns
    the response together with the UTF-8 text of its body and parses
    nothing, be the text valid JSON or not; each of the seven other
    operations returns the response together with the JSON parse of that
    text. A body that is not UTF-8 raises [UnicodeDecodeError] in all of
    them; text that is not JSON raises [JSONDecodeError] in the seven. *)
Theorem response_decoding (op : operation PyObj) g w (resp : Response) :
  ascii_only (api_secret g) -> well_formed (api_key g) ->
  well_formed (api_location g) -> op_well_formed op ->
  wire w (length (sent w)) = Some resp ->
  (call json_loads upper_nonascii op g w).1
  = match op with
    | GetJobOutput _ _ =>
        text ← decode_utf8 (content resp); Ok (resp, Text text)
    | _ =>
        text ← decode_utf8 (content resp);
        j ← or_raise JSONDecodeError (json_loads text);
        Ok (resp, Parsed j)
    end
  /\ forall job_id output_id,
       op = GetJobOutput job_id output_id ->
       (run (get_job_output upper_nonascii g job_id output_id) w).1
       = (text ← decode_utf8 (content resp); Ok (resp, text)).
Proof.
  intros Hs Hk Hl Hop Hw.
  destruct (op_signature_ok op g w Hs Hk Hl Hop) as (key & base & Hsig).
  pose proof (call_run op g w _ Hsig) as Hc.
  rewrite Hw in Hc. cbv beta iota delta [or_raise] in Hc. rstep_in Hc.
  split.
  - rewrite Hc. unfold op_body. destruct op; reflexivity.
  - intros job_id output_id ->. cbn [call] in Hc.
    apply (f_equal fst) in Hc. unfold tagged, op_body in Hc. cbn [fst] in Hc.
    change (run (get_job_output upper_nonascii g job_id output_id) w).1
      with (fst (run (get_job_output upper_nonascii g job_id output_id) w)).
    destruct (fst (run (get_job_output upper_nonascii g job_id output_id) w))
      as [[output text]|e];
      destruct (decode_utf8 (content resp)) as [text'|e'];
      rstep_in Hc; rstep; congruence.
Qed.

(** C10. [generate_signature] returns bytes, the output of [b64encode] on
    an HMAC-SHA1 digest, and changes nothing: the dict it was given, like
    the rest of the world, is as before. Every operation stores these
    bytes, as bytes, under "oauth_signature" in the parameters of the
    request it issues. *)
Theorem signature_bytes_stored (op : operation PyObj) g w :
  ascii_only (api_secret g) -> well_formed (api_key g) ->
  well_formed (api_location g) -> op_well_formed op ->
  (forall (http_method url : pystr) r (w0 : World PyObj),
      (run (generate_signature upper_nonascii g http_method url r) w0).2 = w0
      /\ forall sig : bytes,
           (run (generate_signature upper_nonascii g http_method url r) w0).1
           = Ok sig ->
           exists key msg : bytes, sig = b64encode (hmac_sha1 key msg))
  /\ exists (sig : bytes) (req : Request PyObj),
       run (generate_signature upper_nonascii g (op_method op) (op_url g op)
              (length (heap w))) (with_params (oauth_dict g w) w)
       = (Ok sig, with_params (oauth_dict g w) w)
       /\ sent (call json_loads upper_nonascii op g w).2 = sent w ++ [req]
       /\ req_params req
          = oauth_dict g w ++ [(str "oauth_signature", VBytes sig)]
       /\ dict_get (str "oauth_signature") (req_params req)
          = Some (VBytes sig).
Proof.
  intros Hs Hk Hl Hop. split.
  - intros http_method url r w0. rewrite generate_signature_run.
    split; [reflexivity|]. intros sig. cbn [fst].
    destruct (heap w0 !! r) as [d|]; [|discriminate].
    cbv beta iota delta [or_raise]. rstep. unfold signature_of.
    destruct (base_string_of _ _ _ _); rstep; [|discriminate].
    destruct (encode_ascii (join _ _)); rstep; [|discriminate].
    destruct (encode_ascii a); rstep; [|discriminate].
    intros [= <-]. eauto.
  - destruct (op_signature_ok op g w Hs Hk Hl Hop) as (key & base & Hsig).
    exists (b64encode (hmac_sha1 key base)),
      (op_request g op w (b64encode (hmac_sha1 key base))).
    split; [|split; [|split]].
    + rewrite generate_signature_run, with_params_heap.
      rewrite list_lookup_middle by reflexivity.
      cbv beta iota delta [or_raise]. rstep. by rewrite Hsig.
    + by rewrite (call_run op g w _ Hsig).
    + reflexivity.
    + cbn [op_request req_params]. unfold signed_dict.
      apply dict_get_fresh, oauth_signature_fresh.
Qed.

(** ** Further properties: the OAuth parameters *)

Lemma is_digit_uint u :
  Forall (fun c => is_digit c = true) (str (NilEmpty.string_of_uint u)).
Proof.
  clear. induction u; try (constructor; [reflexivity|exact IHu]). constructor.
Qed.

Lemma str_of_int_digits z :
  0 <= z ->
  str_of_int z <> [] /\ Forall (fun c => is_digit c = true) (str_of_int z).
Proof.
  clear. intros Hz. unfold str_of_int.
  destruct z as [|p|p]; [split; [discriminate|repeat constructor]| |lia].
  cbn [Z.to_int NilZero.string_of_int].
  pose proof (is_digit_uint (Pos.to_uint p)) as Hd.
  pose proof (Unsigned.to_uint_nonnil p) as Hnil.
  destruct (Pos.to_uint p) eqn:E; try (split; [discriminate|exact Hd]).
  congruence.
Qed.

(** X1. [build_oauth_params] never raises. It allocates one new dict, leaves
    the dicts that exist and the request log as they are, takes five draws
    from the random source and one reading of the clock. The dict holds the
    five OAuth keys in the order written, each once: the consumer key is the
    stored [api_key], the nonce is five characters of [[A-Za-z0-9]], the
    method is "HMAC-SHA1", the timestamp is the decimal text of the clock
    reading and the version is "1.0". *)
Theorem build_oauth_params_effect g w :
  exists (d : dict) (nonce : pystr) (w' : World PyObj),
    run (build_oauth_params g) w = (Ok (length (heap w)), w')
    /\ heap w' = heap w ++ [d]
    /\ (forall r, (r < length (heap w))%nat -> heap w' !! r = heap w !! r)
    /\ heap w' !! length (heap w) = Some d
    /\ sent w' = sent w
    /\ cursor w' = (cursor w + 5)%nat
    /\ ticks w' = S (ticks w)
    /\ d.*1 = oauth_keys
    /\ NoDup d.*1
    /\ dict_get (str "oauth_consumer_key") d = Some (VStr (api_key g))
    /\ dict_get (str "oauth_nonce") d = Some (VStr nonce)
    /\ length nonce = 5%nat
    /\ Forall (fun c => alnum c = true) nonce
    /\ dict_get (str "oauth_signature_method") d = Some (VStr (str "HMAC-SHA1"))
    /\ dict_get (str "oauth_timestamp") d
       = Some (VStr (str_of_int (clock w (ticks w))))
    /\ dict_get (str "oauth_version") d = Some (VStr (str "1.0")).
Proof.
  exists (oauth_dict g w), (map (fun i => nth i alphabet 0%N) (draws w 5)),
    (with_params (oauth_dict g w) w).
  split; [apply build_oauth_params_run|].
  split; [reflexivity|].
  split; [intros r Hr; rewrite with_params_heap; by apply lookup_app_l|].
  split; [rewrite with_params_heap; by apply list_lookup_middle|].
  do 4 (split; [reflexivity|]).
  split; [apply (bool_decide_unpack _); vm_compute; reflexivity|].
  do 2 (split; [reflexivity|]).
  split; [by rewrite length_map, draws_length|].
  split; [|repeat split].
  apply Forall_forall. intros c Hc.
  apply list_elem_of_fmap in Hc as (i & -> & Hi).
  apply alphabet_alnum.
  pose proof (draws_lt w 5) as Hlt. rewrite Forall_forall in Hlt.
  apply list_elem_of_In, nth_In. rewrite alphabet_length. by apply Hlt.
Qed.

(** X2. When the clock reading is not negative, the "oauth_timestamp" that
    [build_oauth_params] writes is a non-empty string of decimal digits. *)
Theorem oauth_timestamp_digits g w :
  0 <= clock w (ticks w) ->
  exists (w' : World PyObj) (d : dict) (ts : pystr),
    run (build_oauth_params g) w = (Ok (length (heap w)), w')
    /\ heap w' !! length (heap w) = Some d
    /\ dict_get (str "oauth_timestamp") d = Some (VStr ts)
    /\ ts <> []
    /\ Forall (fun c => is_digit c = true) ts.
Proof.
  intros Hz.
  exists (with_params (oauth_dict g w) w), (oauth_dict g w),
    (str_of_int (clock w (ticks w))).
  split; [apply build_oauth_params_run|].
  split; [rewrite with_params_heap; by apply list_lookup_middle|].
  split; [reflexivity|]. by apply str_of_int_digits.
Qed.

(** ** Further properties: requests and failures *)

Lemma call_raise (op : operation PyObj) g w e :
  signature_of upper_nonascii (api_secret g) (op_method op) (op_url g op)
    (oauth_dict g w) = Raise e ->
  call json_loads upper_nonascii op g w
  = (Raise e, with_params (oauth_dict g w) w).
Proof.
  intros Hsig.
  destruct op as [|a|a kw|a|j|j o| |a];
    cbn [op_method op_url] in *; unfold call;
    (unfold subscription, questions, execute_workflow, get_jobs,
       get_job_status, get_job_output, get_workflows, get_app; cbv zeta);
    rewrite (signing_prelude_raise _ _ _ _ _ _ Hsig); reflexivity.
Qed.

(** X3. Whatever the credentials, the arguments and the world, an operation
    allocates one dict and issues at most one request. It issues none when
    signing raises: the operation then raises that same [UnicodeEncodeError].
    Otherwise it issues exactly one request, with the verb and URL of the
    operation and the signed parameters, before anything is decoded. *)
Theorem at_most_one_request (op : operation PyObj) g w :
  let out := call json_loads upper_nonascii op g w in
  (exists d : dict, heap out.2 = heap w ++ [d])
  /\ ((exists codec,
          signature_of upper_nonascii (api_secret g) (op_method op)
            (op_url g op) (oauth_dict g w) = Raise (UnicodeEncodeError codec)
          /\ out.1 = Raise (UnicodeEncodeError codec)
          /\ sent out.2 = sent w)
      \/ (exists sig,
            signature_of upper_nonascii (api_secret g) (op_method op)
              (op_url g op) (oauth_dict g w) = Ok sig
            /\ sent out.2
               = sent w ++ [
                   {| req_verb := op_verb op; req_url := op_url g op;
                      req_params := oauth_dict g w
                                    ++ [(str "oauth_signature", VBytes sig)];
                      req_json := op_json op;
                      req_headers := op_headers op |}])).
Proof.
  intros out. subst out.
  destruct (signature_of upper_nonascii (api_secret g) (op_method op)
              (op_url g op) (oauth_dict g w)) as [sig|e] eqn:Hsig.
  - rewrite (call_run op g w sig Hsig). split; [by eexists|].
    right. exists sig. split; reflexivity.
  - rewrite (call_raise op g w e Hsig). split; [by eexists|].
    left. destruct (signature_of_raises _ _ _ _ _ Hsig) as [codec ->].
    exists codec. repeat split.
Qed.

(** X4. Once the request is out, failures go to the caller as they are and
    nothing is retried: an unanswered request raises [ConnectionError], a
    body that is not UTF-8 raises [UnicodeDecodeError], and text that is not
    JSON raises [JSONDecodeError] in every operation except [get_job_output],
    which returns the text. In each case the log holds the one request. *)
Theorem failures_propagate (op : operation PyObj) g w (sig : bytes) :
  signature_of upper_nonascii (api_secret g) (op_method op) (op_url g op)
    (oauth_dict g w) = Ok sig ->
  let out := call json_loads upper_nonascii op g w in
  length (sent out.2) = S (length (sent w))
  /\ (wire w (length (sent w)) = None -> out.1 = Raise ConnectionError)
  /\ (forall resp,
        wire w (length (sent w)) = Some resp ->
        utf8_decode (content resp) = None ->
        out.1 = Raise (UnicodeDecodeError "utf-8"))
  /\ (forall resp text,
        wire w (length (sent w)) = Some resp ->
        utf8_decode (content resp) = Some text ->
        json_loads text = None ->
        out.1 = match op with
                | GetJobOutput _ _ => Ok (resp, Text text)
                | _ => Raise JSONDecodeError
                end).
Proof.
  intros Hsig out. subst out. rewrite (call_run op g w sig Hsig).
  cbn [fst snd]. split; [|split; [|split]].
  - cbn [sent with_sent]. rewrite length_app. cbn [length]. lia.
  - intros ->. reflexivity.
  - intros resp -> Hd. cbv beta iota delta [or_raise]. rstep.
    unfold op_body, decode_utf8. rewrite Hd. reflexivity.
  - intros resp text -> Hd Hj. cbv beta iota delta [or_raise]. rstep.
    unfold op_body, decode_utf8. rewrite Hd.
    cbv beta iota delta [or_raise]. rstep. rewrite Hj.
    destruct op; reflexivity.
Qed.

Lemma without_signature_signed g w (sig : bytes) :
  without_signature (signed_dict g w sig) = oauth_dict g w.
Proof. reflexivity. Qed.

(** X5. The signature an operation sends can be checked from the request
    alone: it is the value under "oauth_signature", and signing the other
    parameters of that request again, for the same method and the URL of the
    request, gives these very bytes. *)
Theorem sent_signature_verifies (op : operation PyObj) g w
    (req : Request PyObj) :
  sent (call json_loads upper_nonascii op g w).2 = sent w ++ [req] ->
  exists sig : bytes,
    dict_get (str "oauth_signature") (req_params req) = Some (VBytes sig)
    /\ signature_of upper_nonascii (api_secret g) (op_method op) (req_url req)
         (without_signature (req_params req)) = Ok sig.
Proof.
  intros Hsent.
  destruct (signature_of upper_nonascii (api_secret g) (op_method op)
              (op_url g op) (oauth_dict g w)) as [sig|e] eqn:Hsig.
  - rewrite (call_run op g w sig Hsig) in Hsent. cbn [snd sent with_sent] in Hsent.
    apply app_inv_head in Hsent. injection Hsent as <-.
    exists sig. cbn [op_request req_params req_url].
    rewrite without_signature_signed. split; [|exact Hsig].
    apply dict_get_fresh, oauth_signature_fresh.
  - rewrite (call_raise op g w e Hsig) in Hsent. cbn [snd] in Hsent.
    change (sent (with_params (oauth_dict g w) w)) with (sent w) in Hsent.
    apply (f_equal length) in Hsent. rewrite length_app in Hsent.
    cbn [length] in Hsent. lia.
Qed.

(** ** Further properties: the signature *)

Lemma signature_of_inv (secret http_method url : pystr) (d : dict)
    (sig : bytes) :
  signature_of upper_nonascii secret http_method url d = Ok sig ->
  exists (base : pystr) (key bb : bytes),
    base_string_of upper_nonascii http_method url d = Ok base
    /\ encode_ascii (join (str "&") [secret; []]) = Ok key
    /\ encode_ascii base = Ok bb
    /\ sig = b64encode (hmac_sha1 key bb).
Proof.
  unfold signature_of.
  destruct (base_string_of _ _ _ _) as [base|] eqn:E1; rstep; [|discriminate].
  destruct (encode_ascii (join _ _)) as [key|] eqn:E2; rstep; [|discriminate].
  destruct (encode_ascii base) as [bb|] eqn:E3; rstep; [|discriminate].
  intros [= <-]. by exists base, key, bb.
Qed.

Lemma generate_signature_inv g (http_method url : pystr) r w (sig : bytes) w' :
  run (generate_signature upper_nonascii g http_method url r) w = (Ok sig, w') ->
  exists d : dict,
    heap w !! r = Some d /\ w' = w
    /\ signature_of upper_nonascii (api_secret g) http_method url d = Ok sig.
Proof.
  rewrite generate_signature_run.
  destruct (heap w !! r) as [d|]; cbv beta iota delta [or_raise]; rstep;
    [|discriminate].
  intros [= H <-]. by exists d.
Qed.

Lemma upper_char_idem c :
  (c < 128)%N ->
  exists c', upper_char upper_nonascii c = [c'] /\ (c' < 128)%N
             /\ upper_char upper_nonascii c' = [c'].
Proof.
  intros Hc. unfold upper_char. apply N.ltb_lt in Hc as Hc'. rewrite Hc'.
  destruct ((97 <=? c) && (c <=? 122))%N eqn:E.
  - apply andb_true_iff in E as [E1%N.leb_le E2%N.leb_le].
    exists (c - 32)%N. split; [reflexivity|]. split; [lia|].
    replace (c - 32 <? 128)%N with true by (symmetry; apply N.ltb_lt; lia).
    replace (97 <=? c - 32)%N with false by (symmetry; apply N.leb_gt; lia).
    reflexivity.
  - exists c. split; [reflexivity|]. split; [lia|]. by rewrite Hc', E.
Qed.

Lemma str_upper_idem s :
  ascii_only s ->
  str_upper upper_nonascii (str_upper upper_nonascii s)
  = str_upper upper_nonascii s.
Proof.
  induction 1 as [|c s Hc _ IH]; [reflexivity|].
  destruct (upper_char_idem c Hc) as (c' & E1 & _ & E2).
  unfold str_upper in *. cbn [flat_map]. rewrite E1.
  cbn [app flat_map]. rewrite E2, IH. reflexivity.
Qed.

(** X6. The method is case-insensitive: for an ASCII method,
    [generate_signature] gives the same result, signature or exception, for
    the method as written and for its upper-case form. *)
Theorem method_case_insensitive g (http_method url : pystr) r w :
  ascii_only http_method ->
  run (generate_signature upper_nonascii g http_method url r) w
  = run (generate_signature upper_nonascii g
           (str_upper upper_nonascii http_method) url r) w.
Proof.
  intros Hm. rewrite !generate_signature_run.
  unfold signature_of, base_string_of. by rewrite (str_upper_idem _ Hm).
Qed.

Lemma be_bytes_length n x : length (SHA1.be_bytes n x) = n.
Proof. clear. induction n as [|n IH]; [reflexivity|]. simpl. by rewrite IH. Qed.

Lemma digest_length msg : length (SHA1.digest msg) = 20%nat.
Proof. clear. unfold SHA1.digest. by rewrite !length_app, !be_bytes_length. Qed.

Lemma hmac_sha1_length key msg : length (hmac_sha1 key msg) = 20%nat.
Proof. clear. unfold hmac_sha1. apply digest_length. Qed.

Lemma b64_char_in i : b64_char i ∈ b64_alphabet.
Proof.
  clear. unfold b64_char. apply list_elem_of_In, nth_In.
  change (length b64_alphabet) with 64%nat.
  pose proof (Z.mod_pos_bound i 64). lia.
Qed.

Lemma b64encode_digest (bs : bytes) :
  length bs = 20%nat ->
  length (b64encode bs) = 28%nat
  /\ last (b64encode bs) = Some x3d
  /\ Forall (fun x => x ∈ b64_alphabet) (take 27 (b64encode bs)).
Proof.
  clear. intros Hlen.
  do 20 (destruct bs as [|? bs]; [discriminate Hlen|]).
  destruct bs; [|discriminate Hlen].
  cbn [b64encode]. split; [reflexivity|]. split; [reflexivity|].
  cbn [take]. repeat (apply Forall_cons_2; [apply b64_char_in|]).
  apply Forall_nil_2.
Qed.

(** X7. Every signature [generate_signature] returns is 28 bytes long: 27
    characters of the base64 alphabet followed by the padding "=". *)
Theorem signature_shape g (http_method url : pystr) r w (sig : bytes) w' :
  run (generate_signature upper_nonascii g http_method url r) w = (Ok sig, w') ->
  length sig = 28%nat
  /\ last sig = Some x3d
  /\ Forall (fun x => x ∈ b64_alphabet) (take 27 sig).
Proof.
  intros (d & _ & _ & Hsig)%generate_signature_inv.
  apply signature_of_inv in Hsig as (base & key & bb & _ & _ & _ & ->).
  apply b64encode_digest, hmac_sha1_length.
Qed.

Lemma ascii_encode_app s t :
  ascii_encode (s ++ t)
  = match ascii_encode s, ascii_encode t with
    | Some a, Some b => Some (a ++ b)
    | _, _ => None
    end.
Proof.
  clear. induction s as [|c s IH]; cbn [app ascii_encode].
  - by destruct (ascii_encode t).
  - destruct (c <? 128)%N; [|reflexivity]. rewrite IH.
    destruct (ascii_encode s), (ascii_encode t); reflexivity.
Qed.

(** X14. The signing key is the secret followed by "&", the token secret
    being empty: a returned signature is the base64 encoding of the HMAC-SHA1
    digest, keyed with the ASCII bytes of [api_secret] followed by the byte
    0x26, of the ASCII bytes of the base string. *)
Theorem signing_key_is_secret_amp g (http_method url : pystr) r w
    (sig : bytes) w' :
  run (generate_signature upper_nonascii g http_method url r) w = (Ok sig, w') ->
  exists (d : dict) (base : pystr) (secret_bytes base_bytes : bytes),
    heap w !! r = Some d
    /\ ascii_encode (api_secret g) = Some secret_bytes
    /\ base_string_of upper_nonascii http_method url d = Ok base
    /\ ascii_encode base = Some base_bytes
    /\ sig = b64encode (hmac_sha1 (secret_bytes ++ [x26]) base_bytes).
Proof.
  intros (d & Hd & _ & Hsig)%generate_signature_inv.
  apply signature_of_inv in Hsig as (base & key & bb & Hb & Hk & Hbb & ->).
  unfold encode_ascii in Hk, Hbb. cbn [join] in Hk.
  rewrite ascii_encode_app in Hk.
  destruct (ascii_encode (api_secret g)) as [sb|] eqn:Es; [|discriminate Hk].
  destruct (ascii_encode base) as [bb'|] eqn:Eb; [|discriminate Hbb].
  injection Hbb as ->.
  change (ascii_encode (str "&" ++ [])) with (Some [x26]) in Hk.
  cbn [or_raise] in Hk. injection Hk as <-.
  by exists d, base, sb, bb.
Qed.

Lemma quoter_url_chars x :
  forallb url_char (quoter [126%N] x) = true.
Proof. clear. destruct x; reflexivity. Qed.

Lemma quote_url_chars (s q : pystr) :
  quote (inl s) (str "~") = Ok q -> Forall (fun c => url_char c = true) q.
Proof.
  clear. unfold quote. destruct s as [|c s]; [intros [= <-]; constructor|].
  destruct (encode_utf8 (c :: s)) as [bs|]; rstep; [|discriminate].
  intros [= <-]. unfold quote_from_bytes.
  change (List.filter (fun c => c <? 128)%N (str "~")) with [126%N].
  induction bs as [|x bs IH]; [constructor|].
  cbn [flat_map]. apply Forall_app. split; [|exact IH].
  apply Forall_forall. intros a Ha.
  pose proof (quoter_url_chars x) as H. rewrite forallb_forall in H.
  by apply H, list_elem_of_In.
Qed.

(** X8. A base string that [generate_signature] builds is the upper-cased
    method, "&", the quoted URL, "&" and the quoted parameter string; the two
    quoted parts hold nothing but unreserved characters and "%", so no "&"
    of their own: the three parts can be told apart. *)
Theorem base_string_structure (http_method url : pystr) (d : dict)
    (base : pystr) :
  base_string_of upper_nonascii http_method url d = Ok base ->
  exists quoted_url quoted_params : pystr,
    base = str_upper upper_nonascii http_method ++ str "&" ++ quoted_url
           ++ str "&" ++ quoted_params
    /\ Forall (fun c => url_char c = true) quoted_url
    /\ Forall (fun c => url_char c = true) quoted_params
    /\ (38%N ∉ quoted_url)
    /\ (38%N ∉ quoted_params).
Proof.
  unfold base_string_of.
  destruct (urlencode (sorted d)) as [np|]; rstep; [|discriminate].
  destruct (quote (inl url) (str "~")) as [qu|] eqn:Equ; rstep; [|discriminate].
  destruct (quote (inl np) (str "~")) as [qp|] eqn:Eqp; rstep; [|discriminate].
  intros [= <-]. exists qu, qp.
  apply quote_url_chars in Equ, Eqp.
  split; [reflexivity|]. split; [exact Equ|]. split; [exact Eqp|].
  split; intros Hin.
  - rewrite Forall_forall in Equ. by specialize (Equ _ Hin).
  - rewrite Forall_forall in Eqp. by specialize (Eqp _ Hin).
Qed.

(** ** Further properties: the normalised parameter string *)

Lemma utf8_encode_app s t :
  utf8_encode (s ++ t)
  = match utf8_encode s, utf8_encode t with
    | Some a, Some b => Some (a ++ b)
    | _, _ => None
    end.
Proof.
  clear. induction s as [|c s IH]; cbn [app utf8_encode].
  - by destruct (utf8_encode t).
  - rewrite IH. destruct (utf8_encode_char c); [|reflexivity].
    destruct (utf8_encode s), (utf8_encode t); try reflexivity.
    by rewrite app_assoc.
Qed.

Lemma quote_alt (s safe : pystr) :
  quote (inl s) safe
  = (bs ← encode_utf8 s; Ok (quote_from_bytes bs safe)).
Proof. clear. by destruct s. Qed.

(** [quote] works piecewise: quoting a concatenation succeeds when quoting
    both pieces does, and gives the concatenation of the results. *)
Lemma quote_app_inv (s t safe q : pystr) :
  quote (inl (s ++ t)) safe = Ok q ->
  exists qs qt,
    quote (inl s) safe = Ok qs /\ quote (inl t) safe = Ok qt /\ q = qs ++ qt.
Proof.
  clear. rewrite !quote_alt. unfold encode_utf8. rewrite utf8_encode_app.
  destruct (utf8_encode s) as [a|]; [|discriminate].
  destruct (utf8_encode t) as [b|]; [|discriminate].
  cbn [or_raise]. rstep. intros [= <-]. exists (quote_from_bytes a safe),
    (quote_from_bytes b safe).
  split; [reflexivity|]. split; [reflexivity|].
  unfold quote_from_bytes. apply flat_map_app.
Qed.

Lemma mapM_urlencode_inv (q : dict) (l : list pystr) :
  mapM (B:=list N) urlencode_item q = Ok l ->
  Forall2 (fun kv e =>
    exists k' v',
      quote_plus (inl kv.1) [] = Ok k'
      /\ quote_plus (quotable kv.2) [] = Ok v'
      /\ e = k' ++ str "=" ++ v') q l.
Proof.
  clear. revert l. induction q as [|[k v] q IH]; intros l.
  - intros [= <-]. constructor.
  - cbn [mapM urlencode_item].
    destruct (quote_plus (inl k) []) as [k'|] eqn:Ek; simpl; [|discriminate].
    destruct (quote_plus (quotable v) []) as [v'|] eqn:Ev; simpl;
      [|discriminate].
    destruct (mapM _ q) as [l'|] eqn:El; simpl; [|discriminate].
    intros [= <-]. constructor; [|by apply IH].
    exists k', v'. auto.
Qed.

(** Quoting the query string quotes each pair and turns the "=" and "&"
    between them into "%3D" and "%26". *)
Lemma quote_query (items : list (pystr * pystr)) (q : pystr) :
  quote (inl (join (str "&") (map (fun e => e.1 ++ str "=" ++ e.2) items)))
    (str "~") = Ok q ->
  exists quoted : list (pystr * pystr),
    Forall2 (fun e e' =>
      quote (inl e.1) (str "~") = Ok e'.1
      /\ quote (inl e.2) (str "~") = Ok e'.2) items quoted
    /\ q = join (str "%26") (map (fun e => e.1 ++ str "%3D" ++ e.2) quoted).
Proof.
  clear. revert q. induction items as [|[k v] items IH]; intros q.
  - intros [= <-]. exists []. split; [constructor|reflexivity].
  - assert (forall x : pystr, quote (inl (k ++ str "=" ++ v)) (str "~") = Ok x ->
              exists k' v', quote (inl k) (str "~") = Ok k'
                /\ quote (inl v) (str "~") = Ok v'
                /\ x = k' ++ str "%3D" ++ v') as Hpair.
    { intros x (k' & x' & Hk & Hr & ->)%quote_app_inv.
      apply quote_app_inv in Hr as (e & v' & He & Hv & ->).
      injection He as <-. by exists k', v'. }
    destruct items as [|kv items].
    + cbn [map join]. cbn [fst snd].
      intros (k' & v' & Hk & Hv & ->)%Hpair.
      exists [(k', v')]. split; [|reflexivity].
      constructor; [by split|constructor].
    + change (join (str "&")
                (map (fun e => e.1 ++ str "=" ++ e.2) ((k, v) :: kv :: items)))
        with ((k ++ str "=" ++ v) ++ str "&"
              ++ join (str "&")
                   (map (fun e => e.1 ++ str "=" ++ e.2) (kv :: items))).
      intros (x & x' & Hr & Hr' & ->)%quote_app_inv.
      apply Hpair in Hr as (k' & v' & Hk & Hv & ->).
      apply quote_app_inv in Hr' as (e & q' & He & Hq' & ->).
      injection He as <-.
      destruct (IH _ Hq') as (quoted & HF & ->).
      exists ((k', v') :: quoted). split; [constructor; [by split|exact HF]|].
      inversion HF as [|? e' ? quoted' _ _]; subst. reflexivity.
Qed.

(** X9. The parameter part of a base string is the sorted parameters, each
    key and value encoded by [quote_plus] and then again by [quote], written
    key "%3D" value and joined by "%26": the "=" and "&" of the query string
    are themselves percent-encoded, and so is every "%" the first encoding
    produced. *)
Theorem normalised_parameter_string (http_method url : pystr) (d : dict)
    (base : pystr) :
  base_string_of upper_nonascii http_method url d = Ok base ->
  exists (quoted_url : pystr) (once twice : list (pystr * pystr)),
    quote (inl url) (str "~") = Ok quoted_url
    /\ Forall2 (fun kv e =>
         quote_plus (inl kv.1) [] = Ok e.1
         /\ quote_plus (quotable kv.2) [] = Ok e.2) (sorted d) once
    /\ Forall2 (fun e e' =>
         quote (inl e.1) (str "~") = Ok e'.1
         /\ quote (inl e.2) (str "~") = Ok e'.2) once twice
    /\ base = str_upper upper_nonascii http_method ++ str "&" ++ quoted_url
              ++ str "&"
              ++ join (str "%26")
                   (map (fun e => e.1 ++ str "%3D" ++ e.2) twice).
Proof.
  unfold base_string_of, urlencode.
  destruct (mapM _ (sorted d)) as [l|] eqn:El; rstep; [|discriminate].
  destruct (quote (inl url) (str "~")) as [qu|] eqn:Equ; rstep; [|discriminate].
  match goal with
  | |- context [quote ?x ?y ≫= _] =>
      destruct (quote x y) as [qp|] eqn:Eqp; rstep; [|discriminate]
  end.
  intros [= <-]. apply mapM_urlencode_inv in El.
  assert (exists once : list (pystr * pystr),
             Forall2 (fun kv e =>
               quote_plus (inl kv.1) [] = Ok e.1
               /\ quote_plus (quotable kv.2) [] = Ok e.2) (sorted d) once
             /\ l = map (fun e => e.1 ++ str "=" ++ e.2) once)
    as (once & Honce & ->).
  { clear -El. induction El as [|kv e q l (k' & v' & Hk & Hv & ->) _ IH].
    - exists []. split; [constructor|reflexivity].
    - destruct IH as (once & HF & ->).
      exists ((k', v') :: once). split; [constructor; [by split|exact HF]|].
      reflexivity. }
  apply quote_query in Eqp as (twice & Htwice & ->).
  exists qu, once, twice. repeat split; assumption.
Qed.

(** ** Further properties: validation, nonce, keyword arguments *)

(** X10. Emptiness is tested before the type: [None], [False], [0] and empty
    bytes are refused as empty, with [Exception], like the empty string, and
    [TypeError] is left to the non-strings that are truthy. Construction
    reports the first offending argument in the order location, key,
    secret. *)
Theorem validation_precedence (va vb vc : pyval) :
  (truthy va = false ->
   Gallery_init va vb vc
   = Raise (Exception (str "'api_location' cannot be empty")))
  /\ (truthy va = true -> isinstance_str va = false ->
      Gallery_init va vb vc
      = Raise (TypeError (str "Invalid type " ++ type_repr va
                          ++ str " for variable 'api_location'")))
  /\ (forall a, va = VStr a -> a <> [] ->
      (truthy vb = false ->
       Gallery_init va vb vc
       = Raise (Exception (str "'api_key' cannot be empty")))
      /\ (truthy vb = true -> isinstance_str vb = false ->
          Gallery_init va vb vc
          = Raise (TypeError (str "Invalid type: " ++ type_repr vb
                              ++ str " for variable 'api_key'")))
      /\ (forall b, vb = VStr b -> b <> [] ->
          (truthy vc = false ->
           Gallery_init va vb vc
           = Raise (Exception (str "'api_secret' cannot be empty")))
          /\ (truthy vc = true -> isinstance_str vc = false ->
              Gallery_init va vb vc
              = Raise (TypeError (str "Invalid type " ++ type_repr vc
                                  ++ str " for variable 'api_secret'"))))).
Proof.
  clear. unfold Gallery_init. split; [|split].
  - intros H. unfold validate_api_location. by rewrite H.
  - intros H1 H2. unfold validate_api_location. rewrite H1.
    by destruct va.
  - intros a -> Ha. destruct a as [|c a]; [congruence|].
    cbn [validate_api_location truthy length Nat.eqb negb]. rstep.
    split; [|split].
    + intros H. unfold validate_api_key. by rewrite H.
    + intros H1 H2. unfold validate_api_key. rewrite H1. by destruct vb.
    + intros b -> Hb. destruct b as [|c' b]; [congruence|].
      cbn [validate_api_key truthy length Nat.eqb negb]. rstep. split.
      * intros H. unfold validate_api_secret. by rewrite H.
      * intros H1 H2. unfold validate_api_secret. rewrite H1. by destruct vc.
Qed.

(** X11. A length of zero or less gives the empty nonce and takes nothing
    from the random source. *)
Theorem nonce_nonpositive_length (n : Z) w :
  n <= 0 -> run (generate_nonce (Some n)) w = (Ok [], w).
Proof.
  intros Hn. pose proof (generate_nonce_run (Some n) w) as H.
  cbv zeta in H. change (default 5 (Some n)) with n in H.
  replace (Z.to_nat n) with 0%nat in H by lia.
  rewrite H, Nat.add_0_r, with_cursor_same. reflexivity.
Qed.

Lemma draws_app w (a b : nat) :
  draws w (a + b) = draws w a ++ draws (with_cursor (cursor w + a) w) b.
Proof.
  unfold draws. rewrite seq_app, map_app. f_equal.
  cbn [tape cursor with_cursor]. rewrite Nat.add_0_l.
  rewrite <- (Nat.add_0_r a) at 1. rewrite <- fmap_add_seq.
  change (fmap (Nat.add a)) with (map (Nat.add a)). rewrite map_map.
  apply map_ext. intros k. by rewrite Nat.add_assoc.
Qed.

(** X12. Nonces are cut from the random source in order: a nonce of length
    [a] followed by one of length [b] is, characters and remaining random
    source alike, one nonce of length [a + b]. *)
Theorem nonce_concatenation (a b : Z) w :
  0 <= a -> 0 <= b ->
  run (x ← generate_nonce (Some a); y ← generate_nonce (Some b);
       mret (x ++ y)) w
  = run (generate_nonce (Some (a + b))) w.
Proof.
  intros Ha Hb.
  pose proof (generate_nonce_run (Some a) w) as H1.
  pose proof (generate_nonce_run (Some b)
                (with_cursor (cursor w + Z.to_nat a) w)) as H2.
  pose proof (generate_nonce_run (Some (a + b)) w) as H3.
  cbv zeta in H1, H2, H3.
  change (default 5 (Some a)) with a in H1.
  change (default 5 (Some b)) with b in H2.
  change (default 5 (Some (a + b))) with (a + b) in H3.
  unfold pystr in *.
  rewrite run_bind, H1. cbv beta iota. rewrite run_bind, H2. cbv beta iota.
  rewrite H3.
  replace (Z.to_nat (a + b)) with (Z.to_nat a + Z.to_nat b)%nat by lia.
  rewrite draws_app, map_app. unfold run, mret, M_ret. f_equal.
  destruct w. unfold with_cursor. cbn. f_equal. lia.
Qed.

(** X13. [execute_workflow] looks at no keyword argument but "payload": two
    calls whose keyword arguments agree on "payload" do the same, whatever
    else was passed. *)
Theorem execute_workflow_other_kwargs g (app_id : pystr)
    (kwargs kwargs' : list (pystr * PyObj)) w :
  dict_get (str "payload") kwargs = dict_get (str "payload") kwargs' ->
  run (execute_workflow json_loads upper_nonascii g app_id kwargs) w
  = run (execute_workflow json_loads upper_nonascii g app_id kwargs') w.
Proof. intros H. unfold execute_workflow. by rewrite H. Qed.

(** ** Further properties: assignment, consumption, exact success *)

(** X15. An assignment after construction is validated exactly as the
    construction is: on an instance constructed from three values, assigning
    a value to a field gives what constructing with that value in its place
    gives, the new instance or the same exception. *)
Theorem assignment_matches_construction (va vb vc v : pyval) g :
  Gallery_init va vb vc = Ok g ->
  set_api_location g v = Gallery_init v vb vc
  /\ set_api_key g v = Gallery_init va v vc
  /\ set_api_secret g v = Gallery_init va vb v.
Proof.
  clear. unfold Gallery_init, set_api_location, set_api_key, set_api_secret.
  destruct (validate_api_location va) as [a|]; rstep; [|discriminate].
  destruct (validate_api_key vb) as [b|]; rstep; [|discriminate].
  destruct (validate_api_secret vc) as [c|]; rstep; [|discriminate].
  intros [= <-]. cbn [api_location api_key api_secret].
  split; [|split].
  - destruct (validate_api_location v); reflexivity.
  - destruct (validate_api_key v); reflexivity.
  - destruct (validate_api_secret v); reflexivity.
Qed.

(** X16. Whether it succeeds or raises, an operation takes exactly five
    draws from the random source and one reading of the clock, and leaves
    the random tape, the clock and the network's answers as they were: the
    next operation signs with a new nonce and the next clock reading. *)
Theorem operation_consumption (op : operation PyObj) g w :
  let w' := (call json_loads upper_nonascii op g w).2 in
  cursor w' = (cursor w + 5)%nat
  /\ ticks w' = S (ticks w)
  /\ tape w' = tape w
  /\ clock w' = clock w
  /\ wire w' = wire w
  /\ oauth_dict g w'
     = [(str "oauth_consumer_key", VStr (api_key g));
        (str "oauth_nonce",
         VStr (map (fun k => nth (tape w (cursor w + 5 + k) mod 62)%nat
                               alphabet 0%N) (seq 0 5)));
        (str "oauth_signature_method", VStr (str "HMAC-SHA1"));
        (str "oauth_timestamp", VStr (str_of_int (clock w (S (ticks w)))));
        (str "oauth_version", VStr (str "1.0"))].
Proof.
  intros w'. subst w'.
  destruct (signature_of upper_nonascii (api_secret g) (op_method op)
              (op_url g op) (oauth_dict g w)) as [sig|e] eqn:Hsig.
  - rewrite (call_run op g w sig Hsig). repeat split.
  - rewrite (call_raise op g w e Hsig). repeat split.
Qed.

Lemma utf8_encode_char_inv c bs :
  utf8_encode_char c = Some bs -> scalar c = true.
Proof.
  clear. unfold utf8_encode_char, scalar, is_surrogate.
  destruct (N.ltb_spec c 128); [intros _|].
  { apply andb_true_iff. split; [apply N.ltb_lt; lia|].
    apply negb_true_iff, andb_false_iff. left. apply N.leb_gt. lia. }
  destruct (N.ltb_spec c 2048); [intros _|].
  { apply andb_true_iff. split; [apply N.ltb_lt; lia|].
    apply negb_true_iff, andb_false_iff. left. apply N.leb_gt. lia. }
  destruct ((55296 <=? c) && (c <=? 57343))%N; [discriminate|].
  destruct (N.ltb_spec c 65536); [intros _|].
  { apply andb_true_iff. split; [apply N.ltb_lt; lia|reflexivity]. }
  destruct (c <? 1114112)%N; [reflexivity|discriminate].
Qed.

Lemma utf8_encode_inv s bs : utf8_encode s = Some bs -> well_formed s.
Proof.
  clear. revert bs. induction s as [|c s IH]; intros bs; [constructor|].
  cbn [utf8_encode].
  destruct (utf8_encode_char c) as [b|] eqn:Ec; [|discriminate].
  destruct (utf8_encode s) as [b'|]; [|discriminate].
  intros _. constructor; [by eapply utf8_encode_char_inv|by eapply IH].
Qed.

Lemma quote_inv x (safe q : pystr) :
  quote x safe = Ok q -> quotable_well_formed x.
Proof.
  clear. destruct x as [s|bs]; [|done]. rewrite quote_alt. unfold encode_utf8.
  destruct (utf8_encode s) as [bs|] eqn:E; [|discriminate].
  intros _. by eapply utf8_encode_inv.
Qed.

Lemma quote_plus_inv x (safe q : pystr) :
  quote_plus x safe = Ok q -> quotable_well_formed x.
Proof.
  clear. unfold quote_plus. destruct (negb (has_space x)).
  - apply quote_inv.
  - destruct (quote x (safe ++ str " ")) as [q'|] eqn:E; [|discriminate].
    intros _. by eapply quote_inv.
Qed.

Lemma urlencode_inv (query : dict) (q : pystr) :
  urlencode query = Ok q -> Forall item_well_formed query.
Proof.
  clear. unfold urlencode.
  destruct (mapM _ query) as [l|] eqn:El; [|discriminate]. intros _.
  apply mapM_urlencode_inv in El.
  induction El as [|[k v] e query l (k' & v' & Hk & Hv & _) _ IH];
    constructor; [|exact IH].
  split; [by apply quote_plus_inv in Hk|by apply quote_plus_inv in Hv].
Qed.

(** X17. With an ASCII secret and method, [generate_signature] returns a
    signature exactly when the URL and the keys and values of the parameters
    hold no lone surrogate (and no value beyond U+10FFFF); no other text
    makes it raise. *)
Theorem signing_succeeds_iff g (http_method url : pystr) r w (d : dict) :
  heap w !! r = Some d ->
  ascii_only (api_secret g) ->
  ascii_only http_method ->
  (exists sig,
      run (generate_signature upper_nonascii g http_method url r) w
      = (Ok sig, w))
  <-> well_formed url /\ Forall item_well_formed d.
Proof.
  intros Hr Hs Hm. rewrite generate_signature_run, Hr.
  cbv beta iota delta [or_raise]. rstep. split.
  - intros [sig [= Hsig]].
    apply signature_of_inv in Hsig as (base & _ & _ & Hb & _).
    unfold base_string_of in Hb.
    destruct (urlencode (sorted d)) as [np|] eqn:En; rstep_in Hb;
      [|discriminate].
    destruct (quote (inl url) (str "~")) as [qu|] eqn:Equ; [|discriminate].
    split; [by apply quote_inv in Equ|].
    apply urlencode_inv in En. rewrite Forall_forall in *.
    intros kv Hkv. apply En. by rewrite sorted_perm.
  - intros [Hu Hd].
    destruct (signature_of_ok _ _ _ _ Hs Hm Hu Hd) as (? & ? & _ & _ & ->).
    eauto.
Qed.

(** ** The encoding of the parameters against the encoding of the URL *)

Lemma quote_plus_as_quote (x : pystr + bytes) :
  has_space x = false -> quote_plus x [] = quote x (str "~").
Proof.
  clear. intros Hx. unfold quote_plus. rewrite Hx. cbn [negb].
  destruct x as [[|c s]|bs]; cbn [quote]; [reflexivity| |].
  - destruct (encode_utf8 (c :: s)); rstep; [|reflexivity].
    by rewrite quote_from_bytes_tilde.
  - by rewrite quote_from_bytes_tilde.
Qed.

(** Away from the space the code does what the specification says: when no
    key and no value holds a space, the base string of the code is the one
    obtained by encoding keys and values as the URL is encoded. *)
Lemma encodings_agree_without_space (http_method url : pystr) (d : dict) :
  Forall (fun kv => has_space (inl kv.1) = false
                    /\ has_space (quotable kv.2) = false) d ->
  base_string_of upper_nonascii http_method url d
  = claimed_base_string_of upper_nonascii http_method url d.
Proof.
  intros Hd. unfold base_string_of, claimed_base_string_of.
  assert (urlencode (sorted d) = claimed_urlencode (sorted d)) as ->;
    [|reflexivity].
  assert (Forall (fun kv => has_space (inl kv.1) = false
                            /\ has_space (quotable kv.2) = false) (sorted d))
    as Hs.
  { rewrite Forall_forall in *. intros kv Hkv. apply Hd.
    by rewrite sorted_perm in Hkv. }
  unfold urlencode, claimed_urlencode. f_equal.
  induction Hs as [|[k v] q [Hk Hv] _ IH]; [reflexivity|].
  cbn [fst snd] in Hk, Hv.
  cbn [mapM urlencode_item claimed_urlencode_item].
  rewrite (quote_plus_as_quote _ Hk), (quote_plus_as_quote _ Hv).
  by rewrite IH.
Qed.

(** C2. The claim holds of the code away from the space and fails on it.
    With the consumer key "a b" among the pinned parameters, the code
    encodes the key's space as "+" where it encodes a space of the URL as
    "%20": its base string carries "a%2Bb", the base string of the
    specification "a%2520b", and the signature returned is not the one the
    specified encoding gives. *)
Theorem space_in_parameter_misencoded (loc key : pystr) w :
  let g := {| api_location := loc; api_key := key; api_secret := str "s" |} in
  run (params ← new_dict spaced_params;
       generate_signature upper_nonascii g (str "GET") known_url params) w
  = (Ok (lit "WFP9hL3t2hkZ95Xv+HwdVUKOrFo="),
     with_heap (heap w ++ [spaced_params]) w)
  /\ base_string_of upper_nonascii (str "GET") known_url spaced_params
     = Ok (str spaced_base_string)
  /\ claimed_base_string_of upper_nonascii (str "GET") known_url spaced_params
     = Ok (str claimed_spaced_base_string)
  /\ str spaced_base_string <> str claimed_spaced_base_string
  /\ b64encode (hmac_sha1 (lit "s&") (lit claimed_spaced_base_string))
     = lit "aKQNN+5WF407xeax3oq75lGUix8="
  /\ quote_plus (inl (str "a b")) [] = Ok (str "a+b")
  /\ quote (inl (str "a b")) (str "~") = Ok (str "a%20b").
Proof.
  intros g. split.
  - unfold run. unfold mbind at 1. unfold M_bind, new_dict.
    pose proof (generate_signature_run g (str "GET") known_url
                  (length (heap w)) (with_heap (heap w ++ [spaced_params]) w))
      as Hrun.
    unfold run in Hrun. rewrite Hrun, heap_with_heap.
    rewrite list_lookup_middle by reflexivity.
    cbv beta iota delta [or_raise mbind result_bind].
    change (api_secret g) with (str "s").
    assert (signature_of upper_nonascii (str "s") (str "GET") known_url
              spaced_params = Ok (lit "WFP9hL3t2hkZ95Xv+HwdVUKOrFo=")) as ->
      by (vm_compute; reflexivity).
    reflexivity.
  - split; [vm_compute; reflexivity|].
    split; [vm_compute; reflexivity|].
    split; [|split; [|split]]; try (vm_compute; reflexivity).
    intros H. apply (f_equal length) in H. vm_compute in H. discriminate H.
Qed.

End Properties.

(** * Concrete instances *)

(** C3, as first stated, fails: on a constructed instance the assignment of
    another non-empty secret is accepted, the stored field changes, and the
    signature of the same request changes with it. *)
Lemma credentials_reassigned :
  Gallery_init (VStr (str "https://example.com")) (VStr (str "k"))
    (VStr (str "s")) = Ok example_gallery
  /\ exists g', set_api_secret example_gallery (VStr (str "t")) = Ok g'
       /\ api_secret g' = str "t"
       /\ api_secret g' <> api_secret example_gallery
       /\ signature_of (fun c => [c]) (api_secret g') (str "GET") known_url
            known_params
          <> signature_of (fun c => [c]) (api_secret example_gallery)
               (str "GET") known_url known_params.
Proof.
  split; [reflexivity|]. eexists. split; [reflexivity|].
  split; [reflexivity|]. split; [discriminate|].
  vm_compute. discriminate.
Qed.

Lemma credentials_validated_witness :
  Gallery_init (VStr (str "https://example.com")) (VStr (str "k"))
    (VStr (str "s")) = Ok example_gallery
  /\ (exists e, Gallery_init (VStr (str "https://example.com")) (VInt 7)
                  (VStr (str "s")) = Raise e
                /\ forall w : World unit,
                     run (lift (Gallery_init (VStr (str "https://example.com"))
                                  (VInt 7) (VStr (str "s")))) w = (Raise e, w))
  /\ ((exists e, set_api_location example_gallery (VStr []) = Raise e)
      /\ (exists e, set_api_key example_gallery (VStr []) = Raise e)
      /\ (exists e, set_api_secret example_gallery (VStr []) = Raise e)).
Proof.
  split; [|split].
  - apply (proj1 (@credentials_validated unit)); discriminate.
  - apply (proj1 (proj2 (@credentials_validated unit))).
    right. left. right. reflexivity.
  - apply (proj2 (proj2 (@credentials_validated unit))).
    left. reflexivity.
Defined.

(** Closed side conditions on literals. *)
Ltac closed :=
  first
    [ reflexivity
    | unfold ascii_only, well_formed, op_well_formed;
      apply (bool_decide_unpack _); vm_compute; reflexivity ].

(** A literal dict is free of lone surrogates. *)
Ltac closed_items :=
  cbv [rev app known_params accented_params];
  repeat apply Forall_cons_2; try apply Forall_nil_2;
  unfold item_well_formed; cbn [fst snd quotable quotable_well_formed];
  split; closed.

(** C5, as first stated, fails on parameter values: the value "é" (U+00E9) is
    outside ASCII, and the signature is returned all the same. *)
Lemma accented_parameter_signed :
  heap example_world !! 2%nat = Some accented_params
  /\ Exists (fun kv => exists s, kv.2 = VStr s
                                 /\ Exists (fun c => (128 <= c)%N) s)
       accented_params
  /\ run (generate_signature plain_upper example_gallery (str "GET") known_url
            2%nat) example_world
     = (Ok (lit "Hhi0/TDIAhnnyU9B7ECWqJjEzKk="), example_world).
Proof.
  split; [reflexivity|]. split.
  - left. exists [233%N]. split; [reflexivity|]. left. lia.
  - rewrite generate_signature_run. vm_compute. reflexivity.
Qed.

Lemma signing_encoding_errors_witness :
  (exists codec,
      run (generate_signature plain_upper accented_gallery (str "GET")
             known_url 0%nat) example_world
      = (Raise (UnicodeEncodeError codec), example_world))
  /\ (exists sig,
         run (generate_signature plain_upper example_gallery (str "GET")
                known_url 2%nat) example_world
         = (Ok sig, example_world)).
Proof.
  split.
  - apply (proj1 (signing_encoding_errors plain_upper accented_gallery
                    (str "GET") known_url 0%nat example_world known_params
                    eq_refl)).
    left. lia.
  - apply (proj2 (proj2 (signing_encoding_errors plain_upper example_gallery
                           (str "GET") known_url 2%nat example_world
                           accented_params eq_refl))); try closed.
    closed_items.
Defined.

Lemma signature_order_invariant_witness :
  (run (generate_signature plain_upper example_gallery (str "GET") known_url
          0%nat) example_world).1
  = (run (generate_signature plain_upper example_gallery (str "GET") known_url
            1%nat) example_world).1
  /\ sorted known_params = sorted (rev known_params)
  /\ StronglySorted item_le (sorted known_params)
  /\ sorted known_params ≡ₚ known_params.
Proof.
  apply (signature_order_invariant plain_upper example_gallery example_gallery
           (str "GET") known_url example_world example_world 0%nat 1%nat
           known_params (rev known_params)).
  - reflexivity.
  - reflexivity.
  - reflexivity.
  - apply (bool_decide_unpack _). vm_compute. reflexivity.
  - apply Permutation_rev.
Defined.

Lemma execute_workflow_request_witness :
  exists sig,
    signature_of plain_upper (str "s") (str "POST")
      (str "https://example.com" ++ str "/v1/workflows/" ++ str "app"
       ++ str "/jobs/") (oauth_dict example_gallery example_world) = Ok sig
    /\ (dict_get (str "payload") [(str "payload", tt)] = None ->
        sent (run (execute_workflow example_loads plain_upper example_gallery
                     (str "app") [(str "payload", tt)]) example_world).2
        = sent example_world ++ [
            {| req_verb := POST;
               req_url := str "https://example.com" ++ str "/v1/workflows/"
                          ++ str "app" ++ str "/jobs/";
               req_params := oauth_dict example_gallery example_world
                             ++ [(str "oauth_signature", VBytes sig)];
               req_json := None; req_headers := None |}])
    /\ (forall p, dict_get (str "payload") [(str "payload", tt)] = Some p ->
        sent (run (execute_workflow example_loads plain_upper example_gallery
                     (str "app") [(str "payload", tt)]) example_world).2
        = sent example_world ++ [
            {| req_verb := POST;
               req_url := str "https://example.com" ++ str "/v1/workflows/"
                          ++ str "app" ++ str "/jobs/";
               req_params := oauth_dict example_gallery example_world
                             ++ [(str "oauth_signature", VBytes sig)];
               req_json := Some p;
               req_headers :=
                 Some [(str "Content-Type", str "application/json")] |}]).
Proof.
  apply (execute_workflow_request example_loads plain_upper example_gallery
           (str "app") [(str "payload", tt)] example_world); closed.
Defined.

Lemma response_decoding_witness :
  (call example_loads plain_upper (GetJobOutput (str "j") (str "o"))
     example_gallery example_world).1
  = (text ← decode_utf8 (lit "{}");
     Ok ({| status_code := 200; content := lit "{}" |}, Text text))
  /\ forall job_id output_id,
       @GetJobOutput unit (str "j") (str "o") = GetJobOutput job_id output_id ->
       (run (get_job_output plain_upper example_gallery job_id output_id)
          example_world).1
       = (text ← decode_utf8 (lit "{}");
          Ok ({| status_code := 200; content := lit "{}" |}, text)).
Proof.
  apply (response_decoding example_loads plain_upper
           (GetJobOutput (str "j") (str "o")) example_gallery example_world
           {| status_code := 200; content := lit "{}" |}); closed.
Defined.

Lemma nonce_shape_witness :
  exists s : pystr,
    run (generate_nonce None) example_world
    = (Ok s, with_cursor (cursor example_world + 5) example_world)
    /\ Z.of_nat (length s) = 5
    /\ Forall (fun c => alnum c = true) s
    /\ s = map (fun i => nth i alphabet 0%N) (draws example_world 5)
    /\ Forall (fun i => (i < 62)%nat) (draws example_world 5)
    /\ (forall c, alnum c = true ->
          exists i, (i < 62)%nat /\ nth i alphabet 0%N = c
            /\ forall j, (j < 62)%nat -> nth j alphabet 0%N = c -> j = i)
    /\ (forall ds : list nat,
          length ds = 5%nat -> Forall (fun i => (i < 62)%nat) ds ->
          exists w' : World unit, draws w' 5 = ds).
Proof.
  apply (nonce_shape None example_world). simpl. lia.
Defined.

Lemma signature_bytes_stored_witness :
  (forall (http_method url : pystr) r (w0 : World unit),
      (run (generate_signature plain_upper example_gallery http_method url r)
         w0).2 = w0
      /\ forall sig : bytes,
           (run (generate_signature plain_upper example_gallery http_method
                   url r) w0).1 = Ok sig ->
           exists key msg : bytes, sig = b64encode (hmac_sha1 key msg))
  /\ exists (sig : bytes) (req : Request unit),
       run (generate_signature plain_upper example_gallery
              (op_method (@Subscription unit))
              (op_url example_gallery (@Subscription unit))
              (length (heap example_world)))
         (with_params (oauth_dict example_gallery example_world) example_world)
       = (Ok sig,
          with_params (oauth_dict example_gallery example_world) example_world)
       /\ sent (call example_loads plain_upper Subscription example_gallery
                  example_world).2 = sent example_world ++ [req]
       /\ req_params req
          = oauth_dict example_gallery example_world
            ++ [(str "oauth_signature", VBytes sig)]
       /\ dict_get (str "oauth_signature") (req_params req)
          = Some (VBytes sig).
Proof.
  apply (signature_bytes_stored example_loads plain_upper Subscription
           example_gallery example_world); closed.
Defined.


(** * Concrete instances of the further properties *)

Lemma oauth_timestamp_digits_witness :
  exists (w' : World unit) (d : dict) (ts : pystr),
    run (build_oauth_params example_gallery) example_world
    = (Ok (length (heap example_world)), w')
    /\ heap w' !! length (heap example_world) = Some d
    /\ dict_get (str "oauth_timestamp") d = Some (VStr ts)
    /\ ts <> []
    /\ Forall (fun c => is_digit c = true) ts.
Proof.
  apply (oauth_timestamp_digits example_gallery example_world).
  vm_compute. discriminate.
Defined.

Lemma failures_propagate_witness :
  let out := call example_loads plain_upper GetWorkflows example_gallery
               example_world in
  length (sent out.2) = S (length (sent example_world))
  /\ (wire example_world (length (sent example_world)) = None ->
      out.1 = Raise ConnectionError)
  /\ (forall resp,
        wire example_world (length (sent example_world)) = Some resp ->
        utf8_decode (content resp) = None ->
        out.1 = Raise (UnicodeDecodeError "utf-8"))
  /\ (forall resp text,
        wire example_world (length (sent example_world)) = Some resp ->
        utf8_decode (content resp) = Some text ->
        example_loads text = None ->
        out.1 = Raise JSONDecodeError).
Proof.
  eapply (failures_propagate example_loads plain_upper GetWorkflows
            example_gallery example_world).
  vm_compute. reflexivity.
Defined.

Lemma sent_signature_verifies_witness :
  exists sig : bytes,
    dict_get (str "oauth_signature")
      (req_params (op_request example_gallery (@Subscription unit)
                     example_world example_signature))
    = Some (VBytes sig)
    /\ signature_of plain_upper (api_secret example_gallery)
         (op_method (@Subscription unit))
         (req_url (op_request example_gallery (@Subscription unit)
                     example_world example_signature))
         (without_signature
            (req_params (op_request example_gallery (@Subscription unit)
                           example_world example_signature)))
       = Ok sig.
Proof.
  apply (sent_signature_verifies example_loads plain_upper Subscription
           example_gallery example_world).
  vm_compute. reflexivity.
Defined.

Lemma method_case_insensitive_witness :
  run (generate_signature plain_upper example_gallery (str "get") known_url
         0%nat) example_world
  = run (generate_signature plain_upper example_gallery
           (str_upper plain_upper (str "get")) known_url 0%nat) example_world.
Proof.
  apply (method_case_insensitive plain_upper example_gallery (str "get")
           known_url 0%nat example_world).
  closed.
Defined.

Lemma signature_shape_witness :
  length (lit "DuUr95xl5TO7tP4agwjvGOHEAb8=") = 28%nat
  /\ last (lit "DuUr95xl5TO7tP4agwjvGOHEAb8=") = Some x3d
  /\ Forall (fun x => x ∈ b64_alphabet)
       (take 27 (lit "DuUr95xl5TO7tP4agwjvGOHEAb8=")).
Proof.
  apply (signature_shape plain_upper example_gallery (str "GET") known_url
           0%nat example_world (lit "DuUr95xl5TO7tP4agwjvGOHEAb8=")
           example_world).
  vm_compute. reflexivity.
Defined.

Lemma signing_key_is_secret_amp_witness :
  exists (d : dict) (base : pystr) (secret_bytes base_bytes : bytes),
    heap example_world !! 0%nat = Some d
    /\ ascii_encode (api_secret example_gallery) = Some secret_bytes
    /\ base_string_of plain_upper (str "GET") known_url d = Ok base
    /\ ascii_encode base = Some base_bytes
    /\ lit "DuUr95xl5TO7tP4agwjvGOHEAb8="
       = b64encode (hmac_sha1 (secret_bytes ++ [x26]) base_bytes).
Proof.
  apply (signing_key_is_secret_amp plain_upper example_gallery (str "GET")
           known_url 0%nat example_world (lit "DuUr95xl5TO7tP4agwjvGOHEAb8=")
           example_world).
  vm_compute. reflexivity.
Defined.

Lemma base_string_structure_witness :
  exists quoted_url quoted_params : pystr,
    str known_base_string
    = str_upper plain_upper (str "GET") ++ str "&" ++ quoted_url
      ++ str "&" ++ quoted_params
    /\ Forall (fun c => url_char c = true) quoted_url
    /\ Forall (fun c => url_char c = true) quoted_params
    /\ (38%N ∉ quoted_url)
    /\ (38%N ∉ quoted_params).
Proof.
  apply (base_string_structure plain_upper (str "GET") known_url known_params
           (str known_base_string)).
  vm_compute. reflexivity.
Defined.

Lemma normalised_parameter_string_witness :
  exists (quoted_url : pystr) (once twice : list (pystr * pystr)),
    quote (inl known_url) (str "~") = Ok quoted_url
    /\ Forall2 (fun kv e =>
         quote_plus (inl kv.1) [] = Ok e.1
         /\ quote_plus (quotable kv.2) [] = Ok e.2) (sorted known_params) once
    /\ Forall2 (fun e e' =>
         quote (inl e.1) (str "~") = Ok e'.1
         /\ quote (inl e.2) (str "~") = Ok e'.2) once twice
    /\ str known_base_string
       = str_upper plain_upper (str "GET") ++ str "&" ++ quoted_url
         ++ str "&"
         ++ join (str "%26") (map (fun e => e.1 ++ str "%3D" ++ e.2) twice).
Proof.
  apply (normalised_parameter_string plain_upper (str "GET") known_url
           known_params (str known_base_string)).
  vm_compute. reflexivity.
Defined.

Lemma validation_precedence_witness :
  Gallery_init VNone (VInt 7) (VStr [])
  = Raise (Exception (str "'api_location' cannot be empty"))
  /\ Gallery_init (VInt 7) VNone VNone
     = Raise (TypeError (str "Invalid type " ++ type_repr (VInt 7)
                         ++ str " for variable 'api_location'"))
  /\ Gallery_init (VStr (str "a")) (VBytes []) (VInt 7)
     = Raise (Exception (str "'api_key' cannot be empty")).
Proof.
  split; [|split].
  - apply (proj1 (validation_precedence VNone (VInt 7) (VStr []))).
    reflexivity.
  - apply (proj1 (proj2 (validation_precedence (VInt 7) VNone VNone)));
      reflexivity.
  - apply (proj1 (proj2 (proj2 (validation_precedence (VStr (str "a"))
                                  (VBytes []) (VInt 7))) (str "a") eq_refl
                    ltac:(discriminate))).
    reflexivity.
Defined.

Lemma nonce_nonpositive_length_witness :
  run (generate_nonce (Some (-3))) example_world = (Ok [], example_world).
Proof. apply (nonce_nonpositive_length (-3) example_world). lia. Defined.

Lemma nonce_concatenation_witness :
  run (x ← generate_nonce (Some 2); y ← generate_nonce (Some 3);
       mret (x ++ y)) example_world
  = run (generate_nonce (Some (2 + 3))) example_world.
Proof. apply (nonce_concatenation 2 3 example_world); lia. Defined.

Lemma execute_workflow_other_kwargs_witness :
  run (execute_workflow example_loads plain_upper example_gallery (str "app")
         [(str "priority", tt); (str "payload", tt)]) example_world
  = run (execute_workflow example_loads plain_upper example_gallery (str "app")
           [(str "payload", tt)]) example_world.
Proof.
  apply (execute_workflow_other_kwargs example_loads plain_upper
           example_gallery (str "app")
           [(str "priority", tt); (str "payload", tt)] [(str "payload", tt)]
           example_world).
  reflexivity.
Defined.

Lemma assignment_matches_construction_witness :
  set_api_location example_gallery (VInt 7)
  = Gallery_init (VInt 7) (VStr (str "k")) (VStr (str "s"))
  /\ set_api_key example_gallery (VInt 7)
     = Gallery_init (VStr (str "https://example.com")) (VInt 7)
         (VStr (str "s"))
  /\ set_api_secret example_gallery (VInt 7)
     = Gallery_init (VStr (str "https://example.com")) (VStr (str "k"))
         (VInt 7).
Proof.
  apply (assignment_matches_construction (VStr (str "https://example.com"))
           (VStr (str "k")) (VStr (str "s")) (VInt 7) example_gallery).
  reflexivity.
Defined.

Lemma signing_succeeds_iff_witness :
  (exists sig,
      run (generate_signature plain_upper example_gallery (str "GET")
             known_url 2%nat) example_world = (Ok sig, example_world))
  <-> well_formed known_url /\ Forall item_well_formed accented_params.
Proof.
  apply (signing_succeeds_iff plain_upper example_gallery (str "GET")
           known_url 2%nat example_world accented_params); closed.
Defined.
